(** * KingMaker: command runner, environment parser, branch mapper,
      job configuration, output supervisor and artifact build step

    A shallow embedding of the parts of [processor/framework.py],
    [processor/tasks/CROWNFriends.py] and [processor/tasks/CROWNBuild.py]
    that the specification's testable properties are about, and the proofs
    of these properties.

    Conventions.  A Python [str] is a [string]; its characters are the code
    points 0..255 (U+2028 and U+2029, the two line boundaries of
    [str.splitlines] above that range, have no counterpart).  A Python [int]
    is a [Z].  A [dict] is a [gmap] when only its lookups are observed and an
    association list when its order is.  A raised exception is the [Raise]
    outcome of a [result]. *)

From Stdlib Require Import ZArith Ascii String List.
From stdpp Require Import base option list gmap strings pretty.

Open Scope string_scope.
Open Scope list_scope.

(** ** Python values and built-ins used by the sources *)

Module Py.

(** Exceptions the modelled code raises or lets escape. *)
Inductive exn : Type :=
| Exception (msg : string)
| ValueError (msg : string)
| IndexError (msg : string)
| KeyError (key : string)
| TypeError (msg : string)
| AttributeError (msg : string)
| ZeroDivisionError (msg : string).

(** Outcome of a call: a returned value or a raised exception. *)
Inductive result (A : Type) : Type :=
| Ok (a : A)
| Raise (e : exn).
Arguments Ok {A} a.
Arguments Raise {A} e.

Definition chr (n : nat) : ascii := ascii_of_nat n.
Definition LF : ascii := chr 10.
Definition CR : ascii := chr 13.
Definition SPACE : ascii := chr 32.
Definition EQUALS : ascii := chr 61.
Definition SLASH : ascii := chr 47.

Definition ascii_eqb (a b : ascii) : bool := Ascii.eqb a b.

(** The line boundaries of [str.splitlines] among the code points 0..255:
    LF, VT, FF, CR, FS, GS, RS and NEL. *)
Definition is_linebreak (c : ascii) : bool :=
  let n := nat_of_ascii c in
  ((n =? 10) || (n =? 11) || (n =? 12) || (n =? 13) ||
   (n =? 28) || (n =? 29) || (n =? 30) || (n =? 133))%nat.

(** [s.splitlines()]: the lines of [s] without their boundaries; a CR
    swallows an LF right after it, and a boundary at the very end opens no
    further line. *)
Fixpoint splitlines (s : string) : list string :=
  match s with
  | EmptyString => []
  | String c rest =>
    if is_linebreak c then
      EmptyString ::
      match rest with
      | String d rest' =>
        if ascii_eqb c CR && ascii_eqb d LF then splitlines rest'
        else splitlines rest
      | EmptyString => []
      end
    else match splitlines rest with
         | [] => [String c EmptyString]
         | l :: ls => String c l :: ls
         end
  end.

(** [c in s] for a one-character [c]. *)
Fixpoint contains (c : ascii) (s : string) : bool :=
  match s with
  | EmptyString => false
  | String d rest => ascii_eqb c d || contains c rest
  end.

(** [s.find(c)] for a one-character [c]: the least index of [c] in [s],
    or -1. *)
Fixpoint find_from (i : Z) (c : ascii) (s : string) : Z :=
  match s with
  | EmptyString => (-1)%Z
  | String d rest => if ascii_eqb c d then i else find_from (i + 1)%Z c rest
  end.

Definition find (s : string) (c : ascii) : Z := find_from 0%Z c s.

(** [s.partition(c)] restricted to the case where [c] occurs: the text
    before the first [c] and the text after it. *)
Fixpoint cut (c : ascii) (s : string) : option (string * string) :=
  match s with
  | EmptyString => None
  | String d rest =>
    if ascii_eqb c d then Some (EmptyString, rest)
    else match cut c rest with
         | Some (a, b) => Some (String d a, b)
         | None => None
         end
  end.

(** [s.split(c, 1)]: at most one split, at the first [c]. *)
Definition split1 (s : string) (c : ascii) : list string :=
  match cut c s with
  | Some (a, b) => [a; b]
  | None => [s]
  end.

(** [s.split(c)]: split at every [c]; never the empty list. *)
Fixpoint split (s : string) (c : ascii) : list string :=
  match s with
  | EmptyString => [EmptyString]
  | String d rest =>
    if ascii_eqb c d then EmptyString :: split rest c
    else match split rest c with
         | [] => [String d EmptyString]
         | l :: ls => String d l :: ls
         end
  end.

(** [sep.join(parts)]. *)
Definition join (sep : string) (parts : list string) : string :=
  String.concat sep parts.

(** [s.endswith(suffix)]. *)
Definition endswith (s suffix : string) : bool :=
  let n := String.length s in
  let k := String.length suffix in
  (k <=? n)%nat && String.eqb (String.substring (n - k) k s) suffix.

(** [s.startswith(prefix)]. *)
Definition startswith (s pre : string) : bool := String.prefix pre s.

(** [l[-2]] on a list. *)
Definition second_to_last {A} (l : list A) : option A :=
  match rev l with
  | _ :: x :: _ => Some x
  | _ => None
  end.

(** [x in l] on a list of strings. *)
Definition str_in (x : string) (l : list string) : bool :=
  existsb (String.eqb x) l.

(** [os.path.join(a, *p)] of posixpath. *)
Definition path_join2 (path b : string) : string :=
  if startswith b "/" then b
  else if String.eqb path "" || endswith path "/" then path +:+ b
  else path +:+ "/" +:+ b.

Definition path_join (a : string) (p : list string) : string :=
  fold_left path_join2 p a.

(** [os.path.basename(p)]: what follows the last slash. *)
Definition basename (p : string) : string :=
  List.last (split p SLASH) EmptyString.

(** The characters [str.strip()] removes, among the code points 0..255. *)
Definition is_space (c : ascii) : bool :=
  let n := nat_of_ascii c in
  ((9 <=? n) && (n <=? 13) || (28 <=? n) && (n <=? 32) ||
   (n =? 133) || (n =? 160))%nat.

Fixpoint lstrip (s : string) : string :=
  match s with
  | String c rest => if is_space c then lstrip rest else s
  | EmptyString => s
  end.

(** [rstrip]: a character is kept when it, or a character after it, is not
    white space. *)
Fixpoint rstrip (s : string) : string :=
  match s with
  | EmptyString => EmptyString
  | String c rest =>
    match rstrip rest with
    | EmptyString => if is_space c then EmptyString else String c EmptyString
    | r => String c r
    end
  end.

(** [s.strip()]. *)
Definition strip (s : string) : string := rstrip (lstrip s).

(** [s.replace(c, "")] for a one-character [c]. *)
Fixpoint remove_char (c : ascii) (s : string) : string :=
  match s with
  | EmptyString => EmptyString
  | String d rest =>
    if ascii_eqb c d then remove_char c rest else String d (remove_char c rest)
  end.

(** *** [repr] of a [str] and of a list of [str], as [str.format] renders a
    list argument *)

Definition QUOTE : ascii := chr 39.
Definition DQUOTE : ascii := chr 34.
Definition BACKSLASH : ascii := chr 92.

Definition hex_digit (n : nat) : ascii :=
  if (n <? 10)%nat then chr (48 + n) else chr (87 + n).

(** Code points [repr] writes as they are: the printable ASCII ones and the
    printable Latin-1 ones (U+00A1..U+00FF without the soft hyphen). *)
Definition is_printable (c : ascii) : bool :=
  let n := nat_of_ascii c in
  ((32 <=? n) && (n <? 127) || (161 <=? n) && negb (n =? 173))%nat.

Definition repr_char (quote c : ascii) : string :=
  let n := nat_of_ascii c in
  if ascii_eqb c quote || ascii_eqb c BACKSLASH
  then String BACKSLASH (String c EmptyString)
  else if (n =? 9)%nat then String BACKSLASH "t"
  else if (n =? 10)%nat then String BACKSLASH "n"
  else if (n =? 13)%nat then String BACKSLASH "r"
  else if is_printable c then String c EmptyString
  else String BACKSLASH
         (String "x" (String (hex_digit (n / 16)) (String (hex_digit (n mod 16)) EmptyString))).

Fixpoint repr_body (quote : ascii) (s : string) : string :=
  match s with
  | EmptyString => EmptyString
  | String c rest => repr_char quote c +:+ repr_body quote rest
  end.

(** Single quotes, unless the text has a single quote and no double one. *)
Definition repr_str (s : string) : string :=
  let quote := if contains QUOTE s && negb (contains DQUOTE s) then DQUOTE else QUOTE in
  String quote (repr_body quote s +:+ String quote EmptyString).

Definition repr_list (l : list string) : string :=
  "[" +:+ join ", " (List.map repr_str l) +:+ "]".

(** A parameter that is a [str] or a list of [str]. *)
Inductive str_or_list : Type :=
| Str (s : string)
| StrList (l : list string).

(** Truth value of such a parameter: the empty text and the empty list are
    false. *)
Definition truthy (x : str_or_list) : bool :=
  match x with
  | Str s => negb (String.eqb s "")
  | StrList l => negb (match l with [] => true | _ => false end)
  end.

(** [if isinstance(x, str): x = [x]]. *)
Definition as_list (x : str_or_list) : list string :=
  match x with
  | Str s => [s]
  | StrList l => l
  end.

(** ["{}".format(x)]. *)
Definition format_str_or_list (x : str_or_list) : string :=
  match x with
  | Str s => s
  | StrList l => repr_list l
  end.

(** Truth value of an optional text: [None] and the empty text are false. *)
Definition truthy_opt (x : option string) : bool :=
  match x with
  | Some s => negb (String.eqb s "")
  | None => false
  end.

End Py.

Import Py.

(** ** The world outside the Python process *)

Module Sys.

(** A resolved environment, the [env] argument of a child process. *)
Abbreviation environ := (gmap string string).

(** How a child process is started: the command (one shell line, or an
    argument vector), its environment and its working directory. *)
Inductive popen_cmd : Type :=
| Shell (line : string)
| Argv (args : list string).

Record popen_args : Type := PopenArgs {
  pa_cmd : popen_cmd;
  pa_env : option environ;
  pa_cwd : option string;
}.

(** The two pipes of a child. *)
Inductive fd : Type := Stdout | Stderr.

(** One turn of the streaming loop as the child drives it: the descriptors
    [select] reports ready, each with the text its [readline] then yields. *)
Definition round : Type := list (fd * string).

(** A child that terminates, seen from the streaming loop: the turns after
    which [poll()] is still [None], the turn after which it is not, and the
    exit status [poll()] reports then. *)
Record process : Type := Process {
  running_rounds : list round;
  last_round : round;
  returncode : Z;
}.

(** Calls that act on the outside and return nothing of use. *)
Inductive effect : Type :=
| Makedirs (path : string)                               (* os.makedirs *)
| OsSystem (line : string)                               (* os.system *)
| OsRemove (path : string)                               (* os.remove *)
| Chdir (path : string)                                  (* os.chdir *)
| TouchLocalParent (path : string)                       (* target.parent.touch() *)
| TouchRemoteParent (path : string)
| CopyFromLocal (remote src : string)                    (* target.copy_from_local *)
| UploadTarball (output source : string) (retries : Z).  (* self.upload_tarball *)

(** What the program does that is visible outside it, in order. *)
Inductive event : Type :=
| Log (text : string)                                    (* console.log *)
| Rule (title : string)                                  (* console.rule *)
| LogList (items : list string)                          (* console.log of a list *)
| Spawned (args : popen_args) (code : Z) (out err : string)
                                                         (* interruptable_popen *)
| Streamed (args : popen_args) (p : process)             (* Popen, read to its end *)
| SetupBuildEnvironment (build_dir install_dir crownlib : string)
| Effect (e : effect).

Definition is_child (e : event) : bool :=
  match e with
  | Spawned _ _ _ _ | Streamed _ _ => true
  | _ => false
  end.

Section World.

(** [OS] is the state of everything the program reaches only through calls:
    file systems, the process table, remote storage. *)
Context {OS : Type}.

(** The behaviour of these calls.  Each is a function of the state it is
    made in; those that act return the state they leave.  A child is taken
    to start and to terminate: a [Popen] that cannot start its child and a
    child that never exits are outside this description. *)
Record system : Type := System {
  (* the child run by [interruptable_popen]: exit status, stdout, stderr *)
  sys_run : popen_args -> OS -> (Z * string * string) * OS;
  (* the child started by [Popen] and read until it has terminated *)
  sys_stream : popen_args -> OS -> process * OS;
  (* [os.environ] *)
  sys_environ : OS -> environ;
  (* [os.getcwd] *)
  sys_getcwd : OS -> string;
  (* [os.path.exists] *)
  sys_path_exists : string -> OS -> bool;
  (* [os.path.abspath] *)
  sys_abspath : string -> OS -> string;
  (* [exists()] of a remote target *)
  sys_remote_exists : string -> OS -> bool;
  (* the calls that only act: what they leave, or an exception *)
  sys_effect : effect -> OS -> result unit * OS;
  (* [CROWNBuildBase.setup_build_environment]: the environment, the build
     directory and the install directory, or an exception *)
  sys_setup_build_environment :
    string -> string -> string -> OS -> result (environ * string * string) * OS;
}.

Record world : Type := World {
  events : list event;
  os : OS;
}.

(** Computations in a world that may raise. *)
Definition M (A : Type) : Type := world -> result A * world.

Definition ret {A} (a : A) : M A := fun w => (Ok a, w).

Definition raise {A} (e : exn) : M A := fun w => (Raise e, w).

Definition bind {A B} (m : M A) (k : A -> M B) : M B :=
  fun w =>
    match m w with
    | (Ok a, w') => k a w'
    | (Raise e, w') => (Raise e, w')
    end.

Definition emit (e : event) : M unit :=
  fun w => (Ok tt, {| events := events w ++ [e]; os := os w |}).

Definition when (b : bool) (m : M unit) : M unit :=
  if b then m else ret tt.

(** A state of the world is read. *)
Definition ask {A} (f : OS -> A) : M A := fun w => (Ok (f (os w)), w).

End World.

Arguments system : clear implicits.
Arguments world : clear implicits.
Arguments M : clear implicits.

#[global] Instance M_ret {OS} : MRet (M OS) := @ret OS.
#[global] Instance M_bind {OS} : MBind (M OS) := fun A B k m => bind m k.

End Sys.

Import Sys.

(** ** [processor/framework.py] *)

Module Framework.

(** *** [Task.convert_env_to_dict] *)

(** The body of the loop over the lines. *)
Definition convert_env_line (my_env : gmap string string) (line : string)
  : gmap string string :=
  if (find line SPACE <? 0)%Z then
    match split1 line EQUALS with
    | [key; value] => <[key := value]> my_env
    | _ => my_env                            (* ValueError: pass *)
    end
  else my_env.

Definition convert_env_to_dict (env : string) : gmap string string :=
  fold_left convert_env_line (splitlines env) (∅ : gmap string string).

Section Runner.

Context {OS : Type} (sys : system OS).

Definition console_log (text : string) : M OS unit := emit (Log text).
Definition console_rule (title : string) : M OS unit := emit (Rule title).

(** [law.util.interruptable_popen]: run the child to its end. *)
Definition interruptable_popen (args : popen_args) : M OS (Z * string * string) :=
  fun w =>
    let '((code, out, err), os') := sys_run sys args (os w) in
    (Ok (code, out, err),
     {| events := events w ++ [Spawned args code out err]; os := os' |}).

(** *** [Task.set_environment] *)

Definition set_environment (sourcescripts : str_or_list) (silent : bool)
  : M OS environ :=
  when (negb silent)
    (console_log ("with source script: " +:+ format_str_or_list sourcescripts)) ;;
  let sourcescripts := as_list sourcescripts in
  let source_command :=
    (List.map (fun sourcescript => "source " +:+ sourcescript +:+ ";") sourcescripts
     ++ ["env"])%list in
  let source_command_string := join " " source_command in
  '(code, out, error) ←
    interruptable_popen
      {| pa_cmd := Shell source_command_string; pa_env := None; pa_cwd := None |};
  if negb (code =? 0)%Z then
    console_log ("source returned non-zero exit status " +:+ pretty code) ;;
    console_log ("Error: " +:+ error) ;;
    raise (Exception "source failed")
  else
    ret (convert_env_to_dict out).

(** [if sourcescripts: run_env = self.set_environment(...) else: run_env = None] *)
Definition resolve_run_env (sourcescripts : str_or_list) (silent : bool)
  : M OS (option environ) :=
  if truthy sourcescripts then
    run_env ← set_environment sourcescripts silent; mret (Some run_env)
  else ret None.

(** *** [Task.run_command] *)

Definition run_command (command sourcescripts : str_or_list)
    (run_location : option string) (collect_out silent : bool)
  : M OS (option string) :=
  if truthy command then
    let command := as_list command in
    let logstring := "Running " +:+ repr_list command in
    let logstring :=
      match run_location with
      | Some loc => if truthy_opt run_location then logstring +:+ " from " +:+ loc
                    else logstring
      | None => logstring
      end in
    when (negb silent) (console_log logstring) ;;
    run_env ← resolve_run_env sourcescripts silent;
    when (negb silent) (console_rule "") ;;
    '(code, out, error) ←
      interruptable_popen
        {| pa_cmd := Shell (join " " command); pa_env := run_env;
           pa_cwd := run_location |};
    when (negb silent) (console_log ("Output: " +:+ out) ;; console_rule "") ;;
    when (negb silent || negb (code =? 0)%Z)
      (console_log ("Error: " +:+ error) ;; console_rule "") ;;
    if negb (code =? 0)%Z then
      console_log ("Error when running " +:+ repr_list command +:+ ".") ;;
      console_log ("Command returned non-zero exit status " +:+ pretty code +:+ ".") ;;
      raise (Exception (repr_list command +:+ " failed"))
    else
      when (negb silent) (console_log "Command successful.") ;;
      if collect_out then ret (Some out) else ret None
  else
    raise (Exception "No command provided.").

(** *** [Task.run_command_readable] *)

(** One pass of [for fd in ret[0]]: a line is read from each ready
    descriptor and logged stripped, unless it is a bare line feed. *)
Fixpoint read_ready (ready : round) : M OS unit :=
  match ready with
  | [] => ret tt
  | (fd, read) :: ready' =>
    match fd with
    | Stdout =>                                  (* read = p.stdout.readline() *)
      when (negb (String.eqb read (String LF EmptyString)))
        (console_log (strip read))
    | Stderr =>                                  (* read = p.stderr.readline() *)
      when (negb (String.eqb read (String LF EmptyString)))
        (console_log (strip read))
    end ;;
    read_ready ready'
  end.

(** [while True: ...; if p.poll() != None: break] over the turns of a child
    that terminates. *)
Fixpoint read_until_exit (rounds : list round) (final : round) : M OS unit :=
  match rounds with
  | [] => read_ready final                 (* poll() is the exit status: break *)
  | r :: rounds' => read_ready r ;; read_until_exit rounds' final
  end.

(** [Popen(...)] followed by the loop. *)
Definition popen_and_read (args : popen_args) : M OS unit :=
  fun w =>
    let '(p, os') := sys_stream sys args (os w) in
    read_until_exit (running_rounds p) (last_round p)
      {| events := events w ++ [Streamed args p]; os := os' |}.

Definition run_command_readable (command sourcescript : str_or_list)
    (run_location : option string) : M OS unit :=
  if truthy command then
    let command := as_list command in
    run_env ← resolve_run_env sourcescript false;
    let logstring := "Running " +:+ repr_list command in
    let logstring :=
      match run_location with
      | Some loc => if truthy_opt run_location then logstring +:+ " from " +:+ loc
                    else logstring
      | None => logstring
      end in
    console_log logstring ;;
    popen_and_read
      {| pa_cmd := Shell (join " " command); pa_env := run_env;
         pa_cwd := run_location |}
  else
    raise (Exception "No command provided.").

End Runner.

(** *** [HTCondorWorkflow.htcondor_job_config] *)

(** The parameters of an [HTCondorWorkflow] task that the method reads. *)
Record workflow : Type := Workflow {
  class_name : string;                      (* self.__class__.__name__ *)
  local_user : string;
  wlcg_path : string;
  production_tag : string;
  ENV_NAME : string;
  htcondor_accounting_group : string;
  htcondor_requirements : string;
  htcondor_remote_job : string;
  htcondor_walltime : string;
  htcondor_request_cpus : string;
  htcondor_request_gpus : string;
  htcondor_request_memory : string;
  htcondor_universe : string;
  htcondor_docker_image : string;
  htcondor_request_disk : string;
  additional_files : list string;
  htcondor_user_proxy : string;
}.

(** The job descriptor: the lines added to the submission file, in order,
    and the variables rendered into the job files ([None] is Python's). *)
Record job_config : Type := JobConfig {
  custom_content : list (string * string);
  render_variables : gmap string (option string);
}.

(** ["{}".format(x)] of an optional text. *)
Definition format_opt (x : option string) : string := default "None" x.

(** [list(dict.fromkeys(l))]: the first occurrence of each text, in order. *)
Definition fromkeys (l : list string) : list string :=
  fold_left (fun seen x => if str_in x seen then seen else seen ++ [x]) l [].

(** [dict(items)] from a sequence of lists: each must have two elements. *)
Fixpoint dict_of (items : list (list string)) (d : gmap string string)
  : result (gmap string string) :=
  match items with
  | [] => Ok d
  | [key; value] :: items' => dict_of items' (<[key := value]> d)
  | _ :: _ =>
    Raise (ValueError "dictionary update sequence element has length other than 2")
  end.

Section HTCondorWorkflow.

Context {OS : Type} (sys : system OS).

(** [float(s) > 0] of the built-in [float]; [None] when [float(s)] raises
    [ValueError]. *)
Variable float_positive : string -> option bool.

(** [os.path.expandvars] as a function of the environment and the text. *)
Variable expandvars : environ -> string -> string.

(** The [path] attribute law gives the remote target built from a path. *)
Variable wlcg_target_path : string -> string.

(** The module constant [startup_time]. *)
Variable startup_time : string.

Definition perform (e : effect) : M OS unit :=
  fun w =>
    let '(r, os') := sys_effect sys e (os w) in
    (r, {| events := events w ++ [Effect e]; os := os' |}).

Definition getenv (name : string) : M OS (option string) :=
  ask (fun o => sys_environ sys o !! name).

Definition lift {A} (r : result A) : M OS A := fun w => (r, w).

(** [if not tarball.exists(): ...]: the job tarball is packed and copied to
    the remote storage. *)
Definition repack_tarball (self : workflow) (task_name : string)
    (analysis_name : option string) (tarball : string) : M OS unit :=
  prevdir ← ask (sys_getcwd sys);
  perform (OsSystem "cd $ANALYSIS_PATH") ;;
  let tarball_local :=
    "tarballs/" +:+ production_tag self +:+ "/" +:+ task_name +:+ "/processor.tar.gz" in
  perform (TouchLocalParent tarball_local) ;;
  let command :=
    ["tar"; "--exclude"; "*.pyc"; "--exclude"; "law/.git"; "-czf";
     tarball_local;
     "processor";
     "lawluigi_configs/" +:+ format_opt analysis_name +:+ "_luigi.cfg";
     "lawluigi_configs/" +:+ format_opt analysis_name +:+ "_law.cfg";
     "law"] ++ additional_files self in
  '(code, out, error) ←
    interruptable_popen sys
      {| pa_cmd := Argv command; pa_env := None; pa_cwd := None |};
  (if negb (code =? 0)%Z then
     console_log ("Error when taring job " +:+ error) ;;
     console_log ("Output: " +:+ out) ;;
     console_log ("tar returned non-zero exit status " +:+ pretty code) ;;
     console_rule "" ;;
     perform (OsRemove tarball_local) ;;
     raise (Exception "tar failed")
   else
     console_rule "Successful tar!") ;;
  perform (TouchRemoteParent tarball) ;;
  perform (CopyFromLocal tarball tarball_local) ;;
  console_rule "Tarball uploaded!" ;;
  perform (Chdir prevdir).

Definition htcondor_job_config (self : workflow) (config : job_config)
    (job_num : Z) (branches : list Z) : M OS job_config :=
  analysis_name ← getenv "ANA_NAME";
  let task_name := class_name self in
  analysis_path ← getenv "ANALYSIS_PATH";
  (* Write job config file *)
  let content : list (string * string) := [] in
  let content := content ++ [("accounting_group", htcondor_accounting_group self)] in
  let content :=
    if negb (String.eqb (htcondor_requirements self) "")
    then content ++ [("Requirements", htcondor_requirements self)]
    else content in
  let content := content ++ [("+RemoteJob", htcondor_remote_job self)] in
  let content := content ++ [("universe", htcondor_universe self)] in
  let content := content ++ [("docker_image", htcondor_docker_image self)] in
  let content := content ++ [("+RequestWalltime", htcondor_walltime self)] in
  let content := content ++ [("x509userproxy", htcondor_user_proxy self)] in
  let content := content ++ [("request_cpus", htcondor_request_cpus self)] in
  (* Only include "request_gpus" if any are requested *)
  content ←
    match float_positive (htcondor_request_gpus self) with
    | None => raise (ValueError "could not convert string to float")
    | Some true => mret (content ++ [("request_gpus", htcondor_request_gpus self)])
    | Some false => mret content
    end;
  let content := content ++ [("RequestMemory", htcondor_request_memory self)] in
  let content := content ++ [("RequestDisk", htcondor_request_disk self)] in
  (* Ensure tarball dir exists *)
  tarball_dir ← ask (sys_path_exists sys ("tarballs/" +:+ production_tag self));
  when (negb tarball_dir) (perform (Makedirs ("tarballs/" +:+ production_tag self))) ;;
  (* Repack tarball if it is not available remotely *)
  let tarball :=
    production_tag self +:+ "/" +:+ class_name self +:+ "/job_tarball/processor.tar.gz" in
  tarball_exists ← ask (sys_remote_exists sys tarball);
  when (negb tarball_exists) (repack_tarball self task_name analysis_name tarball) ;;
  (* Check if env of this task was found in cvmfs *)
  env_names_list ← getenv "ENV_NAMES_LIST";
  env_list ←
    match env_names_list with
    | None => raise (AttributeError "'NoneType' object has no attribute 'split'")
    | Some names => mret (split names ";")
    end;
  let env_list := fromkeys (removelast env_list) in
  env_dict ← lift (dict_of (List.map (fun env => split env ",") env_list) ∅);
  use_cvmfs ←
    match env_dict !! ENV_NAME self with
    | None => raise (KeyError (ENV_NAME self))
    | Some flag => mret flag
    end;
  let tarball_env := "env_tarballs/" +:+ ENV_NAME self +:+ ".tar.gz" in
  when (String.eqb use_cvmfs "False")
    (tarball_env_exists ← ask (sys_remote_exists sys tarball_env);
     when (negb tarball_env_exists)
       (perform (TouchRemoteParent tarball_env) ;;
        perform (CopyFromLocal tarball_env
                   ("tarballs/conda_envs/" +:+ ENV_NAME self +:+ ".tar.gz")))) ;;
  let variables := render_variables config in
  let variables := <["USER" := Some (local_user self)]> variables in
  ana_name ← getenv "ANA_NAME";
  let variables := <["ANA_NAME" := ana_name]> variables in
  let variables := <["ENV_NAME" := Some (ENV_NAME self)]> variables in
  let variables := <["TAG" := Some (production_tag self)]> variables in
  let variables := <["USE_CVMFS" := Some use_cvmfs]> variables in
  environ ← ask (sys_environ sys);
  let variables :=
    <["TARBALL_PATH" :=
        Some (expandvars environ (wlcg_path self) +:+ wlcg_target_path tarball)]>
      variables in
  (* Include path to env tarball if env not in cvmfs *)
  let variables :=
    if String.eqb use_cvmfs "False"
    then <["TARBALL_ENV_PATH" :=
             Some (expandvars environ (wlcg_path self) +:+ wlcg_target_path tarball_env)]>
           variables
    else variables in
  let variables := <["LOCAL_TIMESTAMP" := Some startup_time]> variables in
  mret {| custom_content := content; render_variables := variables |}.

End HTCondorWorkflow.

(** *** [PuppetMaster] *)

(** What a task's [output()] returns: a target, a list or tuple, a dict
    (a [DotDict] when flagged), or a target collection; nested at will. *)
#[warnings="-register-all"]
Inductive outputs : Type :=
| OTarget (path : string)
| OSeq (items : list outputs)
| ODict (dotdict : bool) (items : list (string * outputs))
| OCollection (targets : list outputs).

(** [[targ.path for targ in flatten_collections(out)]] of law: the paths
    of the targets, depth first. *)
Fixpoint flatten_paths (out : outputs) : list string :=
  match out with
  | OTarget path => [path]
  | OSeq items => flat_map flatten_paths items
  | ODict _ items => flat_map (fun item => flatten_paths item.2) items
  | OCollection targets => flat_map flatten_paths targets
  end.

(** [d[key]] on the items of a dict. *)
Fixpoint dict_get (key : string) (items : list (string * outputs)) : option outputs :=
  match items with
  | [] => None
  | (k, v) :: items' => if String.eqb k key then Some v else dict_get key items'
  end.

(** [if isinstance(out, DotDict) and "collection" in out.keys():
       out = out["collection"]] *)
Definition unwrap_collection (out : outputs) : outputs :=
  match out with
  | ODict true items => default out (dict_get "collection" items)
  | _ => out
  end.

(** The wrapped task: the name of its class and the outputs it declares
    now. *)
Record puppet : Type := Puppet {
  puppet_class : string;
  puppet_output : outputs;
}.

Record puppet_master : Type := PuppetMaster {
  pm_production_tag : string;
  pm_identifier : list string;
  puppet_task : puppet;
}.

(** What [target.remove()] does to a file: it goes, it silently stays, or
    the call raises. *)
Inductive removal : Type :=
| Removes
| Stays
| Fails (e : exn).

(** The local disk as the supervisor sees it: the manifests by path, each
    the list of paths its JSON text holds; what removing a file does; and
    the environment. *)
Record disk : Type := Disk {
  files : gmap string (list string);
  on_remove : string -> removal;
  disk_environ : environ;
}.

(** [Task.local_path] of a [PuppetMaster]. *)
Definition local_path (self : puppet_master) (path : list string)
  : M disk string :=
  data_path ← ask (fun d => disk_environ d !! "ANALYSIS_DATA_PATH");
  match data_path with
  | None => raise (TypeError "expected str, bytes or os.PathLike object, not NoneType")
  | Some data_path =>
    mret (path_join data_path ([pm_production_tag self; "PuppetMaster"] ++ path))
  end.

Definition target_exists (target : string) : M disk bool :=
  ask (fun d => bool_decide (is_Some (files d !! target))).

Definition target_load (target : string) : M disk (list string) :=
  content ← ask (fun d => files d !! target);
  match content with
  | Some paths => mret paths
  | None => raise (Exception "file not found")
  end.

Definition target_remove (target : string) : M disk unit :=
  fun w =>
    match on_remove (os w) target with
    | Removes =>
      (Ok tt,
       {| events := events w;
          os := {| files := delete target (files (os w));
                   on_remove := on_remove (os w);
                   disk_environ := disk_environ (os w) |} |})
    | Stays => (Ok tt, w)
    | Fails e => (Raise e, w)
    end.

Definition target_dump (target : string) (paths : list string) : M disk unit :=
  fun w =>
    (Ok tt,
     {| events := events w;
        os := {| files := <[target := paths]> (files (os w));
                 on_remove := on_remove (os w);
                 disk_environ := disk_environ (os w) |} |}).

(** [PuppetMaster.output]: the manifest target, after the check of an
    existing manifest against the outputs the puppet declares now. *)
Definition puppet_master_output (self : puppet_master) : M disk string :=
  let puppet := puppet_task self in
  let class_name := puppet_class puppet in
  let unique_par_str := join "_" ([class_name] ++ pm_identifier self) in
  let filename := unique_par_str +:+ ".json" in
  target ← local_path self [filename];
  there ← target_exists target;
  (if there : bool then
     let out := unwrap_collection (puppet_output puppet) in
     let target_paths : gset string := list_to_set (flatten_paths out) in
     loaded ← target_load target;
     let target_paths_from_file : gset string := list_to_set loaded in
     if decide (target_paths = target_paths_from_file) then mret tt
     else
       emit (Log "Missmatch in output files found. Removing checkfile.") ;;
       emit (LogList (elements (target_paths_from_file ∖ target_paths)
                      ++ elements (target_paths ∖ target_paths_from_file))) ;;
       target_remove target ;;
       still_there ← target_exists target;
       if still_there : bool
       then raise (Exception ("File " +:+ target +:+ " could not be deleted"))
       else mret tt
   else (mret tt : M disk unit)) ;;
  mret target.

(** [PuppetMaster.run] once the scheduler has run the puppet and resumed
    the generator: the paths of the puppet's outputs are written to the
    manifest. *)
Definition puppet_master_resume (self : puppet_master) : M disk unit :=
  let puppet := puppet_task self in
  let out := unwrap_collection (puppet_output puppet) in
  let target_paths := flatten_paths out in
  target ← puppet_master_output self;
  target_dump target target_paths.

(** [PuppetMaster.run]: the puppet is yielded to the scheduler; the rest
    runs when the generator is resumed. *)
Definition puppet_master_run (self : puppet_master) : puppet * M disk unit :=
  (puppet_task self, puppet_master_resume self).

End Framework.

(** ** [processor/tasks/CROWNFriends.py] *)

Module CROWNFriends.

(** A target of the upstream collection: its path, and whether the file is
    there (the mapper lists missing files too). *)
Record target : Type := Target {
  path : string;
  present : bool;
}.

(** The parameters of a [CROWNFriends] task. *)
Record task : Type := Task {
  all_sampletypes : list string;
  all_eras : list string;
  scopes : list string;
  shifts : string;
  analysis : string;
  friend_config : string;
  config : string;
  friend_name : string;
  nick : string;
  sampletype : string;
  era : string;
  production_tag : string;
  files_per_task : Z;
  wlcg_path : string;
}.

(** The value of one branch: a dict with these six keys. *)
Record branch_data : Type := BranchData {
  bd_scope : string;
  bd_nick : string;
  bd_era : string;
  bd_sampletype : string;
  bd_inputfile : string;
  bd_filecounter : Z;
}.

(** [int(a / b)]: the quotient is a float and [int] truncates it; for
    operands below 2^53 that is the integer quotient.  A zero divisor
    raises. *)
Definition int_truediv (a b : Z) : result Z :=
  if (b =? 0)%Z then Raise (ZeroDivisionError "division by zero")
  else Ok (a ÷ b)%Z.

Section BranchMap.

(** [os.path.expandvars], a function of the process environment and the
    text. *)
Variable expandvars : environ -> string -> string.

(** The loop of [create_branch_map] over the remaining input files, from
    the map and the counter reached so far. *)
Fixpoint branch_loop (self : task) (env : environ) (branches : list target)
    (branch_map : gmap Z branch_data) (counter : Z)
  : result (gmap Z branch_data) :=
  match branches with
  | [] => Ok branch_map
  | inputfile :: branches' =>
    if negb (endswith (path inputfile) ".root") then
      branch_loop self env branches' branch_map counter          (* continue *)
    else
      match second_to_last (split (path inputfile) SLASH) with
      | None => Raise (IndexError "list index out of range")
      | Some scope =>
        if str_in scope (scopes self) then
          match int_truediv counter (Z.of_nat (length (scopes self))) with
          | Raise e => Raise e
          | Ok filecounter =>
            branch_loop self env branches'
              (<[counter :=
                   {| bd_scope := scope;
                      bd_nick := nick self;
                      bd_era := era self;
                      bd_sampletype := sampletype self;
                      bd_inputfile := expandvars env (wlcg_path self) +:+ path inputfile;
                      bd_filecounter := filecounter |}]> branch_map)
              (counter + 1)%Z
          end
        else branch_loop self env branches' branch_map counter
      end
  end.

(** [create_branch_map], given the flat target list of the upstream
    collection. *)
Definition create_branch_map (self : task) (env : environ)
    (branches : list target) : result (gmap Z branch_data) :=
  branch_loop self env branches ∅ 0%Z.

End BranchMap.

(** *** [CROWNFriends.htcondor_job_config] *)

Section JobConfig.

Context {OS : Type} (sys : system OS).

Variable float_positive : string -> option bool.
Variable expandvars : environ -> string -> string.
Variable wlcg_target_path : string -> string.
Variable startup_time : string.

(** [os.makedirs(path, exist_ok=True)]. *)
Variable makedirs_exist_ok : string -> M OS unit.

(** The inner loop: the value of the first line of the descriptor with this
    key, the empty text when there is none. *)
Fixpoint first_value (type : string) (content : list (string * string)) : string :=
  match content with
  | [] => EmptyString
  | param :: content' =>
    if String.eqb param.1 type then param.2 else first_value type content'
  end.

(** One round of the loop over the kinds of log file. *)
Definition update_log_path (self : task) (type : string)
    (content : list (string * string)) : M OS (list (string * string)) :=
  let logfilepath := first_value type content in
  (* split the filename, and add the sample nick as an additional folder *)
  let logfolder := removelast (split logfilepath SLASH) in
  match last (split logfilepath SLASH) with
  | None => raise (IndexError "list index out of range")
  | Some logfile =>
    (* [logfile.replace(...)] returns a new text, which is dropped *)
    let logfolder := logfolder ++ [nick self] in
    (* create the new path folder if it does not exist *)
    makedirs_exist_ok (join "/" logfolder) ;;
    mret (content ++ [(type, join "/" logfolder +:+ "/" +:+ logfile)])
  end.

Fixpoint update_log_paths (self : task) (types : list string)
    (content : list (string * string)) : M OS (list (string * string)) :=
  match types with
  | [] => mret content
  | type :: types' =>
    content ← update_log_path self type content;
    update_log_paths self types' content
  end.

(** The method, for a task with the parameters [self] of a [CROWNFriends]
    task and [workflow] of an [HTCondorWorkflow]. *)
Definition htcondor_job_config (self : task) (workflow : Framework.workflow)
    (config : Framework.job_config) (job_num : Z) (branches : list Z)
  : M OS Framework.job_config :=
  config ← Framework.htcondor_job_config sys float_positive expandvars
             wlcg_target_path startup_time workflow config job_num branches;
  let content :=
    Framework.custom_content config ++
    [("JobBatchName",
      nick self +:+ "-" +:+ analysis self +:+ "-" +:+ friend_name self +:+ "-" +:+
      production_tag self)] in
  (* update the log file paths *)
  content ← update_log_paths self ["Log"; "Output"; "Error"] content;
  mret {| Framework.custom_content := content;
          Framework.render_variables := Framework.render_variables config |}.

End JobConfig.

(** *** [CROWNFriends.output] *)

(** [Task.remote_path] of a [CROWNFriends] task. *)
Definition remote_path (self : task) (path : list string) : string :=
  path_join (production_tag self) (["CROWNFriends"] ++ path).

(** The paths below the task's remote directory that [output] declares for
    a branch. *)
Definition nicks (self : task) (branch : branch_data) : list string :=
  [friend_name self +:+ "/" +:+ bd_era branch +:+ "/" +:+ bd_nick branch +:+ "/" +:+
   bd_scope branch +:+ "/" +:+ bd_nick branch +:+ "_" +:+
   pretty (bd_filecounter branch) +:+ ".root"] ++
  (* quantities_map json for each scope only needs to be created once per sample *)
  (if (bd_filecounter branch =? 0)%Z
   then [friend_name self +:+ "/" +:+ bd_era branch +:+ "/" +:+ bd_nick branch +:+ "/" +:+
         bd_scope branch +:+ "/" +:+ bd_era branch +:+ "_" +:+ bd_nick branch +:+ "_" +:+
         bd_scope branch +:+ "_quantities_map.json"]
   else []).

Section Output.

Context {OS : Type} (sys : system OS).

(** [for target in targets: target.parent.touch()]. *)
Fixpoint touch_parents (targets : list string) : M OS unit :=
  match targets with
  | [] => mret tt
  | target :: targets' =>
    Framework.perform sys (TouchRemoteParent target) ;; touch_parents targets'
  end.

(** [CROWNFriends.output] of a branch: the remote targets, by their paths. *)
Definition output (self : task) (branch : branch_data) : M OS (list string) :=
  let targets := List.map (fun path => remote_path self [path]) (nicks self branch) in
  touch_parents targets ;;
  mret targets.

End Output.

End CROWNFriends.

(** ** [processor/tasks/CROWNBuild.py] *)

Module CROWNBuild.

Import Framework.

Definition convert_to_comma_seperated (list : str_or_list) : string :=
  match list with
  | Str text => text
  | StrList [item] => item
  | StrList items => join "," items
  end.

(** The parameters of a [CROWNBuild] task, and its resolved input. *)
Record task : Type := Task {
  class_name : string;                      (* self.__class__.__name__ *)
  production_tag : string;
  analysis : string;
  config : string;
  all_sampletypes : str_or_list;
  all_eras : str_or_list;
  shifts : str_or_list;
  scopes : str_or_list;
  threads : Z;
  install_dir : string;
  build_dir : string;
  crownlib : string;                        (* self.input()["crownlib"] *)
}.

Section Build.

Context {OS : Type} (sys : system OS).

(** [Task.remote_path]. *)
Definition remote_path (self : task) (path : list string) : string :=
  path_join (production_tag self) ([class_name self] ++ path).

(** [CROWNBuild.output]: the remote target, by its path. *)
Definition output (self : task) : string :=
  remote_path self ["crown_" +:+ analysis self +:+ "_" +:+ config self +:+ ".tar.gz"].

(** [CROWNBuildBase.setup_build_environment]. *)
Definition setup_build_environment (build_dir install_dir crownlib : string)
  : M OS (environ * string * string) :=
  fun w =>
    let '(r, os') := sys_setup_build_environment sys build_dir install_dir crownlib (os w) in
    (r, {| events := events w ++ [SetupBuildEnvironment build_dir install_dir crownlib];
           os := os' |}).

(** [CROWNBuildBase.upload_tarball]. *)
Definition upload_tarball (output source : string) (retries : Z) : M OS unit :=
  perform sys (UploadTarball output source retries).

(** The command line of the compile script. *)
Definition compile_command (self : task) (compile_script crown_path
    install_dir build_dir : string) : list string :=
  ["bash";
   compile_script;
   crown_path;                                          (* CROWNFOLDER=$1 *)
   analysis self;                                       (* ANALYSIS=$2 *)
   config self;                                         (* CONFIG=$3 *)
   convert_to_comma_seperated (all_sampletypes self);   (* SAMPLES=$4 *)
   convert_to_comma_seperated (all_eras self);          (* all_eras=$5 *)
   convert_to_comma_seperated (scopes self);            (* SCOPES=$6 *)
   convert_to_comma_seperated (shifts self);            (* SHIFTS=$7 *)
   install_dir;                                         (* INSTALLDIR=$8 *)
   build_dir;                                           (* BUILDDIR=$9 *)
   basename (output self);                              (* TARBALLNAME=$10 *)
   pretty (threads self)].                              (* THREADS=$11 *)

(** [CROWNBuild.run]. *)
Definition run (self : task) : M OS unit :=
  let crownlib := crownlib self in
  (* get output file path *)
  let output := output self in
  (* convert list to comma separated strings *)
  let _all_sampletypes := convert_to_comma_seperated (all_sampletypes self) in
  let _all_eras := convert_to_comma_seperated (all_eras self) in
  let _shifts := convert_to_comma_seperated (shifts self) in
  let _scopes := convert_to_comma_seperated (scopes self) in
  let _analysis := analysis self in
  let _config := config self in
  let _threads := pretty (threads self) in
  (* also use the tag for the local tarball creation *)
  let _tag := production_tag self +:+ "/CROWN_" +:+ _analysis +:+ "_" +:+ _config in
  let _install_dir := path_join (install_dir self) [_tag] in
  let _build_dir := path_join (build_dir self) [_tag] in
  _crown_path ← ask (sys_abspath sys "CROWN");
  processor ← ask (sys_abspath sys "processor");
  let _compile_script := path_join processor ["tasks"; "scripts"; "compile_crown.sh"] in
  there ← ask (sys_path_exists sys (path_join _install_dir [basename output]));
  if there : bool then
    console_log ("tarball already existing in tarball directory " +:+ _install_dir) ;;
    install_abspath ← ask (sys_abspath sys _install_dir);
    upload_tarball output (path_join install_abspath [basename output]) 10
  else
    console_rule "Building new CROWN tarball" ;;
    '(my_env, _build_dir, _install_dir) ←
      setup_build_environment _build_dir _install_dir crownlib;
    (* checking cmake path *)
    '(code, _cmake_executable, error) ←
      interruptable_popen sys
        {| pa_cmd := Argv ["which"; "cmake"]; pa_env := Some my_env; pa_cwd := None |};
    (* actual payload: *)
    console_rule "Starting cmake step for CROWN" ;;
    console_log ("Using cmake " +:+ remove_char LF _cmake_executable) ;;
    console_log ("Using CROWN " +:+ _crown_path) ;;
    console_log ("Using build_directory " +:+ _build_dir) ;;
    console_log ("Using install directory " +:+ _install_dir) ;;
    console_log "Settings used: " ;;
    console_log ("Threads: " +:+ _threads) ;;
    console_log ("Analysis: " +:+ _analysis) ;;
    console_log ("Config: " +:+ _config) ;;
    console_log ("Sampletypes: " +:+ _all_sampletypes) ;;
    console_log ("Eras: " +:+ _all_eras) ;;
    console_log ("Scopes: " +:+ _scopes) ;;
    console_log ("Shifts: " +:+ _shifts) ;;
    console_rule "" ;;
    (* run crown compilation script *)
    let command :=
      compile_command self _compile_script _crown_path _install_dir _build_dir in
    run_command_readable sys (StrList command) (StrList []) None ;;
    console_rule "Finished CROWNBuild" ;;
    upload_tarball output (path_join _install_dir [basename output]) 10.

End Build.

End CROWNBuild.

(** * Properties *)

(** ** Environment parser *)

Module EnvParser.

Import Framework.

(** The pair a line stands for: none when the line has a space anywhere or
    has no equals sign, otherwise the text before the first equals sign and
    the text after it. *)
Definition env_line (line : string) : option (string * string) :=
  if contains SPACE line then None else cut EQUALS line.

Lemma find_from_contains c s i :
  (0 <= i)%Z ->
  if contains c s then (i <= find_from i c s)%Z else find_from i c s = (-1)%Z.
Proof.
  revert i. induction s as [|d s IH]; intros i Hi; simpl; [done|].
  destruct (ascii_eqb c d); simpl; [lia|].
  specialize (IH (i + 1)%Z ltac:(lia)).
  destruct (contains c s); lia.
Qed.

Lemma find_negative line c :
  (find line c <? 0)%Z = negb (contains c line).
Proof.
  unfold find. pose proof (find_from_contains c line 0 ltac:(lia)) as H.
  destruct (contains c line); simpl.
  - apply Z.ltb_ge. lia.
  - apply Z.ltb_lt. lia.
Qed.

Lemma cut_none c s : cut c s = None <-> contains c s = false.
Proof.
  induction s as [|d s IH]; simpl; [done|].
  destruct (ascii_eqb c d); simpl; [split; discriminate|].
  destruct (cut c s) as [[a b]|]; [|tauto].
  split; [discriminate|]. intros H. apply IH in H. discriminate.
Qed.

Lemma ascii_eqb_eq a b : ascii_eqb a b = true -> a = b.
Proof. apply Ascii.eqb_eq. Qed.

Lemma cut_some c s a b :
  cut c s = Some (a, b) -> s = a +:+ String c b /\ contains c a = false.
Proof.
  revert a. induction s as [|d s IH]; intros a; simpl; [discriminate|].
  destruct (ascii_eqb c d) eqn:E.
  - intros [= <- <-]. apply ascii_eqb_eq in E as ->. done.
  - destruct (cut c s) as [[a' b']|]; [|discriminate].
    intros [= <- <-]. destruct (IH a' eq_refl) as [-> Ha].
    simpl. by rewrite E.
Qed.

Lemma convert_env_line_env_line my_env line :
  convert_env_line my_env line =
  match env_line line with
  | Some (key, value) => <[key := value]> my_env
  | None => my_env
  end.
Proof.
  unfold convert_env_line, env_line, split1. rewrite find_negative.
  destruct (contains SPACE line); simpl; [done|].
  by destruct (cut EQUALS line) as [[a b]|].
Qed.

(** The loop builds the map of the pairs of the lines, a later line
    overriding an earlier one with the same key. *)
Lemma fold_convert_env_line lines :
  fold_left convert_env_line lines (∅ : gmap string string) =
  list_to_map (reverse (omap env_line lines)).
Proof.
  induction lines as [|line lines IH] using rev_ind; [done|].
  rewrite fold_left_app, omap_app, reverse_app. simpl.
  rewrite convert_env_line_env_line, IH.
  by destruct (env_line line) as [[k v]|].
Qed.

Lemma convert_env_to_dict_pairs env :
  convert_env_to_dict env = list_to_map (reverse (omap env_line (splitlines env))).
Proof. apply fold_convert_env_line. Qed.

(** C2, as the code has it.  A line is dropped exactly when it has a space
    anywhere in it or has no equals sign; every other line is split at its
    first equals sign and binds its key: every entry of the result comes
    from such a line, the key of every such line is bound in the result, and
    it is bound to the value of the last such line with that key. *)
Theorem convert_env_to_dict_lines (env : string) :
  (forall line,
     env_line line = None <->
     contains SPACE line = true \/ contains EQUALS line = false) /\
  (forall line key value,
     env_line line = Some (key, value) ->
     line = key +:+ String EQUALS value /\ contains EQUALS key = false) /\
  (forall key value,
     convert_env_to_dict env !! key = Some value ->
     exists line, line ∈ splitlines env /\ env_line line = Some (key, value)) /\
  (forall line key value,
     line ∈ splitlines env -> env_line line = Some (key, value) ->
     is_Some (convert_env_to_dict env !! key)) /\
  (forall before line after key value,
     splitlines env = (before ++ line :: after)%list ->
     env_line line = Some (key, value) ->
     (forall line' value', line' ∈ after -> env_line line' <> Some (key, value')) ->
     convert_env_to_dict env !! key = Some value).
Proof.
  repeat split.
  - unfold env_line. destruct (contains SPACE line); [by left|].
    intros H. right. by apply cut_none.
  - unfold env_line. destruct (contains SPACE line); [done|].
    intros [H|H]; [done|]. by apply cut_none.
  - unfold env_line in H. destruct (contains SPACE line); [done|].
    by apply cut_some in H as [? ?].
  - unfold env_line in H. destruct (contains SPACE line); [done|].
    by apply cut_some in H as [? ?].
  - intros key value H. rewrite convert_env_to_dict_pairs in H.
    apply elem_of_list_to_map_2 in H. rewrite elem_of_reverse in H.
    by apply list_elem_of_omap in H.
  - intros line key value Hin Hline. rewrite convert_env_to_dict_pairs.
    apply not_eq_None_Some. intros Hnone.
    apply not_elem_of_list_to_map in Hnone. apply Hnone.
    apply list_elem_of_fmap. exists (key, value). split; [done|].
    rewrite elem_of_reverse. apply list_elem_of_omap. eauto.
  - intros before line after key value Hsplit Hline Hafter.
    rewrite convert_env_to_dict_pairs, Hsplit, omap_app. simpl.
    rewrite Hline, reverse_app, reverse_cons, <- app_assoc.
    rewrite list_to_map_app. rewrite lookup_union_r.
    + simpl. by rewrite lookup_insert_eq.
    + apply not_elem_of_list_to_map. intros Hin.
      apply list_elem_of_fmap in Hin as [[k v] [Hk Hin]]. simpl in Hk. subst k.
      rewrite elem_of_reverse in Hin.
      apply list_elem_of_omap in Hin as [line' [Hin' Hl']].
      by eapply Hafter.
Qed.

(** A small environment: [HOME] is bound, the second [PATH] line wins, the
    value of [OPTS] keeps its equals sign, and the lines with a space and
    the line without an equals sign leave no trace. *)
Example convert_env_to_dict_sample :
  let NL := String LF EmptyString in
  let env :=
    "HOME=/home/user" +:+ NL +:+ "PATH=/bin" +:+ NL +:+ "PS1=\u \w" +:+ NL +:+
    "BASH_FUNC_ml%%=() {  eval $(modulecmd)" +:+ NL +:+ "}" +:+ NL +:+
    "OPTS=a=b" +:+ NL +:+ "PATH=/usr/bin:/bin" +:+ NL in
  convert_env_to_dict env =
  <["PATH" := "/usr/bin:/bin"]>
    (<["OPTS" := "a=b"]> (<["HOME" := "/home/user"]> ∅)).
Proof. vm_compute. reflexivity. Qed.

(** C2, as stated, fails: the line [FOO=a b] has an equals sign and no
    space before it, and yet contributes nothing. *)
Lemma convert_env_to_dict_space_after_equals :
  ~ (forall line key value,
       splitlines line = [line] ->
       split1 line EQUALS = [key; value] ->
       contains SPACE key = false ->
       convert_env_to_dict line !! key = Some value).
Proof.
  intros H.
  specialize (H "FOO=a b" "FOO" "a b" eq_refl eq_refl eq_refl).
  vm_compute in H. discriminate.
Qed.

(** *** What the parser keeps of a well-formed environment *)

(** A text has a line boundary in it. *)
Fixpoint has_linebreak (s : string) : bool :=
  match s with
  | EmptyString => false
  | String c rest => is_linebreak c || has_linebreak rest
  end.

(** The text [env] prints for a list of variables: one line [KEY=VALUE] per
    variable, each ended by a line feed. *)
Fixpoint env_text (variables : list (string * string)) : string :=
  match variables with
  | [] => EmptyString
  | (key, value) :: variables' =>
    key +:+ String EQUALS value +:+ String LF (env_text variables')
  end.

(** A variable the parser can keep: no space and no line boundary in its
    name or its value, and no equals sign in its name. *)
Definition plain (variable : string * string) : Prop :=
  contains SPACE variable.1 = false /\
  contains EQUALS variable.1 = false /\
  has_linebreak variable.1 = false /\
  contains SPACE variable.2 = false /\
  has_linebreak variable.2 = false.

Lemma append_cons c s t : String c s +:+ t = String c (s +:+ t).
Proof. reflexivity. Qed.

Lemma append_nil t : EmptyString +:+ t = t.
Proof. reflexivity. Qed.

Lemma string_app_assoc s t u : (s +:+ t) +:+ u = s +:+ (t +:+ u).
Proof.
  induction s as [|c s IH]; [done|]. rewrite !append_cons. by f_equal.
Qed.

Lemma contains_app c s t :
  contains c (s +:+ t) = contains c s || contains c t.
Proof.
  induction s as [|d s IH]; [done|].
  rewrite append_cons. simpl. rewrite IH. by rewrite orb_assoc.
Qed.

Lemma has_linebreak_app s t :
  has_linebreak (s +:+ t) = has_linebreak s || has_linebreak t.
Proof.
  induction s as [|d s IH]; [done|].
  rewrite append_cons. simpl. rewrite IH. by rewrite orb_assoc.
Qed.

Lemma cut_app c s t :
  contains c s = false -> cut c (s +:+ String c t) = Some (s, t).
Proof.
  induction s as [|d s IH].
  - intros _. rewrite append_nil. simpl. unfold ascii_eqb.
    by rewrite Ascii.eqb_refl.
  - rewrite append_cons. simpl. destruct (ascii_eqb c d); [done|].
    simpl. intros H. by rewrite IH.
Qed.

(** A line without a boundary in it, ended by a line feed, is the first
    line of the text. *)
Lemma splitlines_line line rest :
  has_linebreak line = false ->
  splitlines (line +:+ String LF rest) = line :: splitlines rest.
Proof.
  induction line as [|c line IH].
  - intros _. rewrite append_nil. simpl. by destruct rest.
  - rewrite append_cons. simpl. intros H.
    apply orb_false_elim in H as [-> H]. by rewrite IH.
Qed.

(** No line of [splitlines] has a line boundary in it. *)
Lemma splitlines_no_linebreak s :
  Forall (fun line => has_linebreak line = false) (splitlines s).
Proof.
  enough (Forall (fun line => has_linebreak line = false) (splitlines s) /\
          forall d r, s = String d r ->
            Forall (fun line => has_linebreak line = false) (splitlines r))
    by tauto.
  induction s as [|c s [IH1 IH2]]; [by split|].
  split; [|by intros d r [= _ <-]].
  simpl. destruct (is_linebreak c) eqn:Hc.
  - constructor; [done|]. destruct s as [|d r]; [done|].
    destruct (ascii_eqb c CR && ascii_eqb d LF); [by eapply IH2|done].
  - destruct (splitlines s) as [|l ls]; [by repeat constructor; simpl; rewrite Hc|].
    apply Forall_cons in IH1 as [Hl Hls]. constructor; [|done].
    simpl. by rewrite Hc.
Qed.

Lemma splitlines_env_text variables :
  Forall plain variables ->
  splitlines (env_text variables) =
  (fun variable => variable.1 +:+ String EQUALS variable.2) <$> variables.
Proof.
  induction 1 as [|[key value] variables (Hk1 & Hk2 & Hk3 & Hv1 & Hv2) _ IH];
    [done|].
  simpl in *.
  replace (key +:+ String EQUALS value +:+ String LF (env_text variables))
    with ((key +:+ String EQUALS value) +:+ String LF (env_text variables)).
  - rewrite splitlines_line, IH; [done|].
    rewrite has_linebreak_app. simpl. by rewrite Hk3, Hv2.
  - apply string_app_assoc.
Qed.

Lemma env_line_plain variable :
  plain variable ->
  env_line (variable.1 +:+ String EQUALS variable.2) = Some variable.
Proof.
  destruct variable as [key value]. intros (Hk1 & Hk2 & _ & Hv1 & _).
  simpl in *. unfold env_line.
  rewrite contains_app. simpl. rewrite Hk1, Hv1. simpl.
  by apply cut_app.
Qed.

(** Round trip: the text [env] prints for plain variables parses back to
    these variables, the last of two with the same name winning. *)
Theorem convert_env_to_dict_round_trip variables :
  Forall plain variables ->
  convert_env_to_dict (env_text variables) = list_to_map (reverse variables).
Proof.
  intros Hplain. rewrite convert_env_to_dict_pairs, splitlines_env_text by done.
  f_equal. f_equal. induction Hplain as [|variable variables Hv _ IH]; [done|].
  csimpl. rewrite env_line_plain by done. simpl. f_equal. exact IH.
Qed.

Lemma convert_env_to_dict_round_trip_witness :
  convert_env_to_dict
    (env_text [("HOME", "/home/user"); ("PATH", "/bin"); ("PATH", "/usr/bin:/bin")]) =
  list_to_map
    (reverse [("HOME", "/home/user"); ("PATH", "/bin"); ("PATH", "/usr/bin:/bin")]).
Proof.
  apply (convert_env_to_dict_round_trip
           [("HOME", "/home/user"); ("PATH", "/bin"); ("PATH", "/usr/bin:/bin")]).
  repeat constructor.
Defined.

(** Whatever the text, a name in the result has no space, no equals sign
    and no line boundary in it, and its value has no space and no line
    boundary: a value with a space in it is never returned. *)
Theorem convert_env_to_dict_entries_plain env key value :
  convert_env_to_dict env !! key = Some value ->
  plain (key, value).
Proof.
  intros H. rewrite convert_env_to_dict_pairs in H.
  apply elem_of_list_to_map_2 in H. rewrite elem_of_reverse in H.
  apply list_elem_of_omap in H as (line & Hin & Hline).
  pose proof (splitlines_no_linebreak env) as Hbreak.
  rewrite Forall_forall in Hbreak. apply Hbreak in Hin as Hline_break.
  unfold env_line in Hline.
  destruct (contains SPACE line) eqn:Hspace; [done|].
  apply cut_some in Hline as [-> Hequals].
  rewrite contains_app in Hspace. simpl in Hspace.
  rewrite has_linebreak_app in Hline_break. simpl in Hline_break.
  apply orb_false_elim in Hspace as [Hk Hv].
  apply orb_false_elim in Hline_break as [Hkb Hvb].
  unfold plain. simpl. by repeat split.
Qed.

Lemma convert_env_to_dict_entries_plain_witness :
  plain ("PATH", "/usr/bin:/bin").
Proof.
  apply (convert_env_to_dict_entries_plain
           ("PATH=/usr/bin:/bin" +:+ String LF "PS1=a b") "PATH" "/usr/bin:/bin").
  vm_compute. reflexivity.
Defined.

End EnvParser.

(** ** Command runner *)

Module Runner.

Import Framework.

(** A machine on which every child behaves the same way: it exits with
    [code], having written [out] and [err]; streamed, it shows the process
    [p]. *)
Definition uniform_system (code : Z) (out err : string) (p : process)
  : system unit := {|
  sys_run := fun _ o => ((code, out, err), o);
  sys_stream := fun _ o => (p, o);
  sys_environ := fun _ => ∅;
  sys_getcwd := fun _ => "/";
  sys_path_exists := fun _ _ => false;
  sys_abspath := fun path _ => path_join "/" [path];
  sys_remote_exists := fun _ _ => false;
  sys_effect := fun _ o => (Ok tt, o);
  sys_setup_build_environment := fun b i _ o => (Ok (∅, b, i), o);
|}.

Definition idle : world unit := {| events := []; os := tt |}.

Ltac unfold_M :=
  unfold mbind, M_bind, mret, M_ret, bind, ret, raise, when, emit,
    console_log, console_rule, interruptable_popen in *.

Section Runner.

Context {OS : Type} (sys : system OS).

(** An empty command raises at once: nothing is logged and no child is
    started. *)
Lemma run_command_empty command sourcescripts run_location collect_out silent
    (w : world OS) :
  truthy command = false ->
  run_command sys command sourcescripts run_location collect_out silent w =
  (Raise (Exception "No command provided."), w).
Proof. intros H. unfold run_command. by rewrite H. Qed.

Lemma run_command_readable_empty command sourcescript run_location (w : world OS) :
  truthy command = false ->
  run_command_readable sys command sourcescript run_location w =
  (Raise (Exception "No command provided."), w).
Proof. intros H. unfold run_command_readable. by rewrite H. Qed.

(** Reading the child's output only logs. *)
Lemma read_ready_logs ready (w : world OS) :
  exists logs,
    read_ready ready w = (Ok tt, {| events := events w ++ logs; os := os w |}) /\
    Forall (fun e => is_child e = false) logs.
Proof.
  revert w. induction ready as [|[fd read] ready IH]; intros w.
  - exists []. simpl. rewrite app_nil_r. by destruct w.
  - simpl. unfold_M.
    destruct (negb (String.eqb read (String LF EmptyString))).
    + destruct fd; simpl;
        (destruct (IH {| events := events w ++ [Log (strip read)]; os := os w |})
           as (logs & -> & Hlogs);
         exists (Log (strip read) :: logs); simpl; rewrite <- app_assoc;
         split; [done | by constructor]).
    + destruct fd; simpl;
        (destruct (IH w) as (logs & -> & Hlogs); exists logs; done).
Qed.

Lemma read_until_exit_logs rounds final (w : world OS) :
  exists logs,
    read_until_exit rounds final w =
      (Ok tt, {| events := events w ++ logs; os := os w |}) /\
    Forall (fun e => is_child e = false) logs.
Proof.
  revert w. induction rounds as [|r rounds IH]; intros w; simpl.
  - apply read_ready_logs.
  - unfold_M. destruct (read_ready_logs r w) as (l1 & -> & H1).
    destruct (IH {| events := events w ++ l1; os := os w |}) as (l2 & -> & H2).
    exists (l1 ++ l2)%list. simpl. rewrite <- app_assoc. split; [done|].
    by apply Forall_app.
Qed.

(** [Popen] and the loop: the child is started and read to its end, and
    the loop is left normally whatever exit status [poll()] reports. *)
Lemma popen_and_read_returns args (w : world OS) :
  exists logs,
    popen_and_read sys args w =
      (Ok tt,
       {| events := events w ++ Streamed args (sys_stream sys args (os w)).1 :: logs;
          os := (sys_stream sys args (os w)).2 |}) /\
    Forall (fun e => is_child e = false) logs.
Proof.
  unfold popen_and_read. destruct (sys_stream sys args (os w)) as [p os'].
  destruct (read_until_exit_logs (running_rounds p) (last_round p)
              {| events := events w ++ [Streamed args p]; os := os' |})
    as (logs & -> & Hlogs).
  exists logs. simpl. by rewrite <- app_assoc.
Qed.

(** The arguments of the child that sources the scripts and dumps the
    environment. *)
Definition source_args (sourcescripts : str_or_list) : popen_args :=
  {| pa_cmd :=
       Shell (join " "
                (List.map (fun sourcescript => "source " +:+ sourcescript +:+ ";")
                          (as_list sourcescripts) ++ ["env"])%list);
     pa_env := None; pa_cwd := None |}.

(** What [set_environment] does, by the exit status of the sourcing child. *)
Lemma set_environment_outcome sourcescripts silent (w : world OS) :
  exists code out err os' pre,
    sys_run sys (source_args sourcescripts) (os w) = ((code, out, err), os') /\
    Forall (fun e => is_child e = false) pre /\
    set_environment sys sourcescripts silent w =
      if (code =? 0)%Z then
        (Ok (convert_env_to_dict out),
         {| events := events w ++ pre ++ [Spawned (source_args sourcescripts) code out err];
            os := os' |})
      else
        (Raise (Exception "source failed"),
         {| events := events w ++ pre ++
              [Spawned (source_args sourcescripts) code out err;
               Log ("source returned non-zero exit status " +:+ pretty code);
               Log ("Error: " +:+ err)];
            os := os' |}).
Proof.
  unfold set_environment. fold (source_args sourcescripts). unfold_M.
  destruct silent; simpl;
    destruct (sys_run sys (source_args sourcescripts) (os w))
      as [[[code out] err] os'] eqn:Hrun;
    [exists code, out, err, os', [] |
     exists code, out, err, os',
       [Log ("with source script: " +:+ format_str_or_list sourcescripts)]];
    (split; [done|]); (split; [repeat constructor|]);
    destruct (code =? 0)%Z; simpl; rewrite <- ?app_assoc; done.
Qed.

(** The last child among the events of a call. *)
Definition last_child (evs : list event) : option event :=
  last (List.filter is_child evs).

(** The arguments of the command's own child. *)
Definition command_args (command : str_or_list) (run_env : option environ)
    (run_location : option string) : popen_args :=
  {| pa_cmd := Shell (join " " (as_list command)); pa_env := run_env;
     pa_cwd := run_location |}.

(** A child in an explicit list of events exited with a non-zero status:
    the outcome is an exception and its stderr is among the events. *)
Ltac run_command_failing_child :=
  let Hin := fresh "Hin" in
  intros ? ? ? ? Hin ?; set_unfold in Hin;
  repeat match goal with
         | H : _ \/ _ |- _ => destruct H
         | H : Spawned _ _ _ _ = Spawned _ _ _ _ |- _ => injection H as -> -> -> ->
         | H : (_ =? 0)%Z = true |- _ => apply Z.eqb_eq in H
         end;
  try done; try lia;
  (split; [eexists; reflexivity | set_unfold; tauto]).

(** Every child in an explicit list of events exited with status zero:
    either the last child is the command's and its stdout is returned, or
    a child with another status is in the list. *)
Ltac run_command_all_zero :=
  let Hall := fresh "Hall" in
  intros Hall;
  repeat match goal with
         | H : (_ =? 0)%Z = true |- _ => apply Z.eqb_eq in H; subst
         end;
  first
    [ by (unfold last_child, command_args; simpl; eexists _, _, _; split; reflexivity)
    | exfalso;
      match goal with
      | H : (?c =? 0)%Z = false |- _ =>
          apply Z.eqb_neq in H; apply H; eapply Hall;
          solve [repeat first [apply list_elem_of_here | apply list_elem_of_further]]
      end ].

(** C3.  [run_command] on a non-empty command.  A child that exits with a
    non-zero status makes the call raise, and its stderr is logged, silent
    or not.  When every child exits with status zero, the last child is the
    command's own and the call returns: its stdout when [collect_out] is
    set, [None] otherwise. *)
Theorem run_command_fail_fast command sourcescripts run_location collect_out
    silent (w : world OS) r w' :
  truthy command = true ->
  run_command sys command sourcescripts run_location collect_out silent w
    = (r, w') ->
  exists evs,
    events w' = events w ++ evs /\
    (forall args code out err,
       Spawned args code out err ∈ evs -> code <> 0%Z ->
       (exists msg, r = Raise (Exception msg)) /\
       Log ("Error: " +:+ err) ∈ evs) /\
    ((forall args code out err, Spawned args code out err ∈ evs -> code = 0%Z) ->
     exists run_env out err,
       last_child evs =
         Some (Spawned (command_args command run_env run_location) 0 out err) /\
       r = Ok (if collect_out then Some out else None)).
Proof.
  intros Htruthy Hrun. unfold run_command in Hrun. rewrite Htruthy in Hrun.
  unfold resolve_run_env in Hrun.
  fold (command_args command) in Hrun.
  unfold set_environment in Hrun. fold (source_args sourcescripts) in Hrun.
  unfold_M.
  destruct (truthy sourcescripts), silent; simpl in Hrun;
    repeat match type of Hrun with
    | context [sys_run sys ?a ?o] =>
        let code := fresh "code" in let out := fresh "out" in
        let err := fresh "err" in let os' := fresh "os'" in
        destruct (sys_run sys a o) as [[[code out] err] os']; simpl in Hrun
    | context [(?c =? 0)%Z] =>
        let E := fresh "E" in destruct (c =? 0)%Z eqn:E; simpl in Hrun
    | context [if collect_out then _ else _] => destruct collect_out; simpl in Hrun
    end;
    injection Hrun as <- <-; simpl; rewrite <- ?app_assoc; simpl;
    (eexists; split; [reflexivity|]).
  all: split; [run_command_failing_child | run_command_all_zero].
Qed.

(** With a non-empty command, [run_command_readable] raises only when
    sourcing fails, before any child is streamed; once the command's child
    is started the call returns normally: the exit status of that child is
    never looked at. *)
Lemma run_command_readable_outcome command sourcescript run_location
    (w : world OS) r w' :
  truthy command = true ->
  run_command_readable sys command sourcescript run_location w = (r, w') ->
  exists evs,
    events w' = events w ++ evs /\
    ((r = Ok tt /\ exists args p, Streamed args p ∈ evs) \/
     (r = Raise (Exception "source failed") /\
      forall args p, Streamed args p ∉ evs)).
Proof.
  intros Htruthy Hrun. unfold run_command_readable in Hrun.
  rewrite Htruthy in Hrun. unfold resolve_run_env in Hrun.
  destruct (truthy sourcescript).
  - unfold mbind, M_bind, bind, mret, M_ret, ret in Hrun.
    destruct (set_environment_outcome sourcescript false w)
      as (code & out & err & os1 & pre & _ & Hpre & Hset).
    rewrite Hset in Hrun. clear Hset.
    destruct (code =? 0)%Z.
    + unfold console_log, emit in Hrun. simpl in Hrun.
      match type of Hrun with
      | popen_and_read sys ?a ?w1 = _ =>
          destruct (popen_and_read_returns a w1) as (logs & Hp & _)
      end.
      rewrite Hp in Hrun. injection Hrun as <- <-. simpl.
      rewrite <- !app_assoc. eexists. split; [reflexivity|]. left.
      split; [done|]. eexists _, _.
      rewrite !elem_of_app. right. right. right. apply list_elem_of_here.
    + injection Hrun as <- <-. simpl. eexists. split; [reflexivity|]. right.
      split; [done|]. intros args p Hin.
      rewrite elem_of_app in Hin. destruct Hin as [Hin|Hin].
      * rewrite Forall_forall in Hpre. by apply Hpre in Hin.
      * repeat (apply elem_of_cons in Hin as [Hin|Hin]; [discriminate|]).
        by apply elem_of_nil in Hin.
  - unfold mbind, M_bind, bind, mret, M_ret, ret, console_log, emit in Hrun.
    simpl in Hrun.
    match type of Hrun with
    | popen_and_read sys ?a ?w1 = _ =>
        destruct (popen_and_read_returns a w1) as (logs & Hp & _)
    end.
    rewrite Hp in Hrun. injection Hrun as <- <-. simpl.
    rewrite <- !app_assoc. eexists. split; [reflexivity|]. left.
    split; [done|]. eexists _, _.
    rewrite !elem_of_app. right. apply list_elem_of_here.
Qed.

(** Without a source script, [run_command_readable] logs the command,
    starts the child, reads it to its end and returns. *)
Lemma run_command_readable_no_source command sourcescript (w : world OS) :
  truthy command = true ->
  truthy sourcescript = false ->
  exists logs,
    run_command_readable sys command sourcescript None w =
      (Ok tt,
       {| events := events w ++
            Log ("Running " +:+ repr_list (as_list command)) ::
            Streamed (command_args command None None)
                     (sys_stream sys (command_args command None None) (os w)).1 ::
            logs;
          os := (sys_stream sys (command_args command None None) (os w)).2 |}) /\
    Forall (fun e => is_child e = false) logs.
Proof.
  intros Hcommand Hsource. unfold run_command_readable, resolve_run_env.
  rewrite Hcommand, Hsource.
  unfold mbind, M_bind, bind, mret, M_ret, ret, console_log, emit.
  fold (command_args command None None).
  match goal with
  | |- context [popen_and_read sys ?a ?w1] =>
      destruct (popen_and_read_returns a w1) as (logs & -> & Hlogs)
  end.
  exists logs. cbn [events os]. by rewrite <- app_assoc.
Qed.

(** C10.  An empty command, the empty list or the empty text, makes both
    modes of the runner raise; nothing is logged and no child is started,
    the world is as it was. *)
Theorem empty_command_raises command sourcescripts run_location collect_out
    silent (w : world OS) :
  truthy command = false ->
  run_command sys command sourcescripts run_location collect_out silent w =
    (Raise (Exception "No command provided."), w) /\
  run_command_readable sys command sourcescripts run_location w =
    (Raise (Exception "No command provided."), w).
Proof.
  intros H. split.
  - by apply run_command_empty.
  - by apply run_command_readable_empty.
Qed.

End Runner.

(** A child that writes one line to stderr and terminates. *)
Definition failing_child (code : Z) : process :=
  {| running_rounds := [[(Stderr, "No such file" +:+ String LF EmptyString)]];
     last_round := [(Stdout, EmptyString); (Stderr, EmptyString)];
     returncode := code |}.

(** [run_command] with [silent] set and a child that exits with status 3:
    stderr and the failure are logged and the call raises. *)
Example run_command_failure :
  run_command (uniform_system 3 "out" "err" (failing_child 0))
    (StrList ["ls"; "-l"]) (StrList []) (Some "/tmp") true true idle =
  (Raise (Exception "['ls', '-l'] failed"),
   {| events :=
        [Spawned {| pa_cmd := Shell "ls -l"; pa_env := None; pa_cwd := Some "/tmp" |}
                 3 "out" "err";
         Log "Error: err"; Rule EmptyString;
         Log "Error when running ['ls', '-l'].";
         Log "Command returned non-zero exit status 3."];
      os := tt |}).
Proof. vm_compute. reflexivity. Qed.

(** [run_command] with [collect_out] set and a child that exits with status
    0: stdout is returned. *)
Example run_command_success :
  (run_command (uniform_system 0 "out" "err" (failing_child 0))
     (Str "ls") (StrList []) None true true idle).1 = Ok (Some "out").
Proof. vm_compute. reflexivity. Qed.

(** C1 fails on the code.  The child of [run_command_readable] terminates
    with exit status 1 and the call returns normally: nothing after the loop
    reads the status.  ([run_command_readable_outcome] shows the same for
    every machine, command and exit status.) *)
Theorem run_command_readable_ignores_exit_status :
  run_command_readable (uniform_system 0 EmptyString EmptyString (failing_child 1))
    (StrList ["false"]) (StrList []) None idle =
  (Ok tt,
   {| events :=
        [Log "Running ['false']";
         Streamed {| pa_cmd := Shell "false"; pa_env := None; pa_cwd := None |}
                  (failing_child 1);
         Log "No such file"; Log EmptyString; Log EmptyString];
      os := tt |}).
Proof. vm_compute. reflexivity. Qed.

Lemma empty_command_raises_witness :
  run_command (uniform_system 0 "out" "err" (failing_child 0))
    (StrList []) (StrList []) None true false idle =
    (Raise (Exception "No command provided."), idle) /\
  run_command_readable (uniform_system 0 "out" "err" (failing_child 0))
    (StrList []) (StrList []) None idle =
    (Raise (Exception "No command provided."), idle).
Proof.
  apply (empty_command_raises (uniform_system 0 "out" "err" (failing_child 0))
           (StrList []) (StrList []) None true false idle).
  reflexivity.
Defined.

Lemma run_command_fail_fast_witness :
  exists msg,
    (run_command (uniform_system 3 "out" "err" (failing_child 0))
       (StrList ["ls"; "-l"]) (StrList []) None true true idle).1 =
    Raise (Exception msg).
Proof.
  destruct (run_command_fail_fast (uniform_system 3 "out" "err" (failing_child 0))
              (StrList ["ls"; "-l"]) (StrList []) None true true idle _ _
              eq_refl eq_refl) as (evs & Hevs & Hfail & _).
  simpl in Hevs. subst evs.
  destruct (Hfail _ 3%Z _ _ (list_elem_of_here _ _)) as [Hmsg _]; [lia|].
  exact Hmsg.
Defined.

(** *** More on the runner *)

Section Children.

Context {OS : Type} (sys : system OS).

Lemma filter_is_child_none (evs : list event) :
  Forall (fun e => is_child e = false) evs -> List.filter is_child evs = [].
Proof.
  induction 1 as [|e evs He _ IH]; [done|]. simpl. by rewrite He.
Qed.

(** [set_environment] runs one child, the shell that sources the scripts in
    order and prints the environment.  It returns exactly when that child
    exits with status zero, and then returns what the parser makes of its
    stdout; otherwise it raises, having logged the status and the stderr of
    the child, silent or not: no part of an environment comes back from a
    failed sourcing. *)
Theorem set_environment_one_child sourcescripts silent (w : world OS) r w'
    code out err os1 :
  sys_run sys (source_args sourcescripts) (os w) = ((code, out, err), os1) ->
  set_environment sys sourcescripts silent w = (r, w') ->
  exists evs,
    events w' = events w ++ evs /\
    os w' = os1 /\
    List.filter is_child evs = [Spawned (source_args sourcescripts) code out err] /\
    (code = 0%Z -> r = Ok (convert_env_to_dict out)) /\
    (code <> 0%Z ->
     r = Raise (Exception "source failed") /\
     Log ("source returned non-zero exit status " +:+ pretty code) ∈ evs /\
     Log ("Error: " +:+ err) ∈ evs).
Proof.
  intros Hchild Hset.
  destruct (set_environment_outcome sys sourcescripts silent w)
    as (code' & out' & err' & os' & pre & Hchild' & Hpre & Hout).
  rewrite Hchild in Hchild'. injection Hchild' as <- <- <- <-.
  rewrite Hset in Hout. clear Hset.
  destruct (code =? 0)%Z eqn:Hcode; injection Hout as -> ->; cbn [events os];
    eexists; (split; [reflexivity|]); (split; [reflexivity|]);
    rewrite List.filter_app, (filter_is_child_none pre) by done;
    (split; [reflexivity|]).
  - apply Z.eqb_eq in Hcode. split; [done|]. by intros Hne.
  - apply Z.eqb_neq in Hcode. split; [by intros Heq|]. intros _.
    split; [done|]. rewrite !elem_of_app.
    split; right;
      repeat first [apply list_elem_of_here | apply list_elem_of_further].
Qed.

(** The shell line for two scripts. *)
Example source_args_two_scripts :
  source_args (StrList ["setup.sh"; "env.sh"]) =
  {| pa_cmd := Shell "source setup.sh; source env.sh; env";
     pa_env := None; pa_cwd := None |}.
Proof. reflexivity. Qed.

(** The events of [run_command], case by case, as explicit lists. *)
Ltac run_command_cases Hrun :=
  unfold run_command, resolve_run_env, set_environment in Hrun;
  unfold_M;
  repeat match type of Hrun with
         | context [truthy ?c] =>
             let E := fresh "Etruthy" in destruct (truthy c) eqn:E; simpl in Hrun
         | context [if negb ?b then _ else _] => destruct b; simpl in Hrun
         | context [sys_run sys ?a ?o] =>
             let code := fresh "code" in let out := fresh "out" in
             let err := fresh "err" in let os' := fresh "os'" in
             let E := fresh "Echild" in
             destruct (sys_run sys a o) as [[[code out] err] os'] eqn:E;
             simpl in Hrun
         | context [(?c =? 0)%Z] =>
             let E := fresh "E" in destruct (c =? 0)%Z eqn:E; simpl in Hrun
         | context [if ?b then _ else _] => destruct b; simpl in Hrun
         end.

(** With [silent] set, a call of [run_command] that returns has written
    nothing to the console: the only events are the children. *)
Theorem run_command_silent_is_quiet command sourcescripts run_location
    collect_out (w : world OS) out w' :
  run_command sys command sourcescripts run_location collect_out true w
    = (Ok out, w') ->
  exists evs,
    events w' = events w ++ evs /\
    Forall (fun e => is_child e = true) evs.
Proof.
  intros Hrun. run_command_cases Hrun; try discriminate Hrun.
  all: injection Hrun as <- <-; simpl; rewrite <- ?app_assoc; simpl.
  all: eexists; (split; [reflexivity|]); by repeat constructor.
Qed.

(** With source scripts, [run_command] sources first.  When the sourcing
    child fails, the command is never started.  When it succeeds, the command
    is the second and last child, started in [run_location] with the
    environment parsed from the stdout of the sourcing child. *)
Theorem run_command_sources_first command sourcescripts run_location
    collect_out silent (w : world OS) r w' code out err os1 :
  truthy command = true ->
  truthy sourcescripts = true ->
  sys_run sys (source_args sourcescripts) (os w) = ((code, out, err), os1) ->
  run_command sys command sourcescripts run_location collect_out silent w
    = (r, w') ->
  exists evs,
    events w' = events w ++ evs /\
    (code <> 0%Z ->
     r = Raise (Exception "source failed") /\
     os w' = os1 /\
     List.filter is_child evs = [Spawned (source_args sourcescripts) code out err]) /\
    (code = 0%Z ->
     exists code2 out2 err2,
       sys_run sys
         (command_args command (Some (convert_env_to_dict out)) run_location) os1
       = ((code2, out2, err2), os w') /\
       List.filter is_child evs =
       [Spawned (source_args sourcescripts) code out err;
        Spawned (command_args command (Some (convert_env_to_dict out)) run_location)
                code2 out2 err2]).
Proof.
  intros Hcommand Hsource Hchild Hrun.
  unfold run_command, resolve_run_env, set_environment in Hrun.
  rewrite Hcommand, Hsource in Hrun. cbv zeta in Hrun.
  fold (source_args sourcescripts) in Hrun.
  fold (command_args command) in Hrun.
  unfold_M. unfold ret in Hrun.
  destruct silent; cbn in Hrun; rewrite Hchild in Hrun; cbn in Hrun;
    (destruct (code =? 0)%Z eqn:Hcode;
     [apply Z.eqb_eq in Hcode | apply Z.eqb_neq in Hcode]);
    cbn in Hrun.
  all: try (match type of Hrun with
            | context [sys_run sys ?a ?o] =>
                destruct (sys_run sys a o)
                  as [[[code2 out2] err2] os2] eqn:Hchild2
            end;
            cbn in Hrun;
            destruct (code2 =? 0)%Z; cbn in Hrun;
            try destruct collect_out).
  all: injection Hrun as <- <-; cbn [events os]; rewrite <- ?app_assoc;
    (eexists; split; [reflexivity|]);
    (split; [intros Hne | intros Heq]); try done.
  all: try (subst code; eexists _, _, _; split; [exact Hchild2|]; reflexivity).
Qed.

(** The texts a child hands to the streaming loop, in the order they are
    read. *)
Definition reads (p : process) : list string :=
  (concat (running_rounds p ++ [last_round p])).*2.

(** What the loop logs of them: each one stripped, a bare line feed
    skipped. *)
Definition shown (texts : list string) : list event :=
  (fun read => Log (strip read)) <$>
  List.filter (fun read => negb (String.eqb read (String LF EmptyString))) texts.

Lemma read_ready_shows ready (w : world OS) :
  read_ready ready w =
  (Ok tt, {| events := events w ++ shown ready.*2; os := os w |}).
Proof.
  revert w. induction ready as [|[fd read] ready IH]; intros w.
  - simpl. rewrite app_nil_r. by destruct w.
  - simpl. unfold_M. unfold shown. simpl.
    destruct (negb (String.eqb read (String LF EmptyString))).
    + destruct fd; simpl; rewrite IH; simpl; by rewrite <- app_assoc.
    + destruct fd; simpl; by rewrite IH.
Qed.

Lemma shown_app texts1 texts2 :
  shown (texts1 ++ texts2) = shown texts1 ++ shown texts2.
Proof. unfold shown. by rewrite List.filter_app, fmap_app. Qed.

Lemma read_until_exit_shows rounds final (w : world OS) :
  read_until_exit rounds final w =
  (Ok tt,
   {| events := events w ++ shown (concat (rounds ++ [final])).*2; os := os w |}).
Proof.
  revert w. induction rounds as [|r rounds IH]; intros w; simpl.
  - rewrite app_nil_r. apply read_ready_shows.
  - unfold_M. rewrite read_ready_shows, IH. cbn [events os].
    by rewrite fmap_app, shown_app, <- app_assoc.
Qed.

(** Without a source script, [run_command_readable] logs the command, starts
    the child and logs every text it reads from the two pipes, stripped and
    in the order read; only a bare line feed is skipped, so the empty text
    read at the end of a pipe is logged as an empty line. *)
Theorem run_command_readable_shows_output command sourcescript run_location
    (w : world OS) :
  truthy command = true ->
  truthy sourcescript = false ->
  let args := command_args command None run_location in
  let child := sys_stream sys args (os w) in
  exists line,
    run_command_readable sys command sourcescript run_location w =
    (Ok tt,
     {| events := events w ++ Log line :: Streamed args child.1 :: shown (reads child.1);
        os := child.2 |}).
Proof.
  intros Hcommand Hsource args child.
  unfold run_command_readable, resolve_run_env. rewrite Hcommand, Hsource.
  unfold mbind, M_bind, bind, mret, M_ret, ret, console_log, emit, popen_and_read.
  fold (command_args command None run_location). fold args. cbn [os events].
  fold child. destruct child as [p os'].
  rewrite read_until_exit_shows. cbn [events os fst snd].
  eexists. by rewrite <- !app_assoc.
Qed.

End Children.

Lemma set_environment_one_child_witness :
  (set_environment (uniform_system 2 EmptyString "no such file" (failing_child 0))
     (Str "setup.sh") true idle).1 = Raise (Exception "source failed").
Proof.
  destruct (set_environment_one_child
              (uniform_system 2 EmptyString "no such file" (failing_child 0))
              (Str "setup.sh") true idle _ _ 2%Z EmptyString "no such file" tt
              eq_refl eq_refl) as (evs & _ & _ & _ & _ & Hfail).
  destruct Hfail as [Hraise _]; [lia|]. exact Hraise.
Defined.

Lemma run_command_silent_is_quiet_witness :
  exists evs,
    events (run_command (uniform_system 0 "out" "err" (failing_child 0))
              (Str "ls") (StrList []) None true true idle).2 = [] ++ evs /\
    Forall (fun e => is_child e = true) evs.
Proof.
  apply (run_command_silent_is_quiet (uniform_system 0 "out" "err" (failing_child 0))
           (Str "ls") (StrList []) None true idle (Some "out")).
  reflexivity.
Defined.

Lemma run_command_sources_first_witness :
  exists evs,
    events (run_command (uniform_system 0 "A=1" "err" (failing_child 0))
              (Str "ls") (Str "setup.sh") None false true idle).2 = [] ++ evs /\
    length (List.filter is_child evs) = 2.
Proof.
  destruct (run_command_sources_first
              (uniform_system 0 "A=1" "err" (failing_child 0))
              (Str "ls") (Str "setup.sh") None false true idle _ _ 0%Z "A=1" "err" tt
              eq_refl eq_refl eq_refl eq_refl) as (evs & Hevs & _ & Hok).
  exists evs. split; [exact Hevs|].
  destruct (Hok eq_refl) as (code2 & out2 & err2 & _ & ->). reflexivity.
Defined.

Lemma run_command_readable_shows_output_witness :
  exists line,
    run_command_readable (uniform_system 0 "out" "err" (failing_child 1))
      (StrList ["make"]) (StrList []) (Some "/build") idle =
    (Ok tt,
     {| events :=
          [Log line;
           Streamed {| pa_cmd := Shell "make"; pa_env := None; pa_cwd := Some "/build" |}
                    (failing_child 1);
           Log "No such file"; Log EmptyString; Log EmptyString];
        os := tt |}).
Proof.
  apply (run_command_readable_shows_output
           (uniform_system 0 "out" "err" (failing_child 1))
           (StrList ["make"]) (StrList []) (Some "/build") idle);
    reflexivity.
Defined.

End Runner.

(** ** Branch mapper *)

Module BranchMapper.

Import CROWNFriends.

(** The scope a file's path names: its second-to-last segment. *)
Definition scope_of (f : target) : option string :=
  second_to_last (split (path f) SLASH).

(** The files that get a branch: data files whose scope is selected. *)
Definition eligible (self : task) (f : target) : bool :=
  endswith (path f) ".root" &&
  match scope_of f with
  | Some scope => str_in scope (scopes self)
  | None => false
  end.

Section BranchMap.

Variable expandvars : environ -> string -> string.

(** The loop reads of a target its path only, and of the task its scopes,
    dataset identifiers and base path only. *)
Lemma branch_loop_reads self1 self2 env branches1 branches2 branch_map counter :
  path <$> branches1 = path <$> branches2 ->
  scopes self1 = scopes self2 ->
  nick self1 = nick self2 ->
  era self1 = era self2 ->
  sampletype self1 = sampletype self2 ->
  wlcg_path self1 = wlcg_path self2 ->
  branch_loop expandvars self1 env branches1 branch_map counter =
  branch_loop expandvars self2 env branches2 branch_map counter.
Proof.
  intros Hpaths Hscopes Hnick Hera Hsample Hwlcg.
  revert branches2 Hpaths branch_map counter.
  induction branches1 as [|f1 branches1 IH]; intros [|f2 branches2] Hpaths;
    try discriminate; [done|].
  injection Hpaths as Hpath Hpaths. intros branch_map counter. simpl.
  rewrite Hpath, Hscopes, Hnick, Hera, Hsample, Hwlcg.
  destruct (negb (endswith (path f2) ".root")); [by apply IH|].
  destruct (second_to_last (split (path f2) SLASH)) as [scope|]; [|done].
  destruct (str_in scope (scopes self2)); [|by apply IH].
  destruct (int_truediv counter (Z.of_nat (length (scopes self2)))); [|done].
  by apply IH.
Qed.

(** C4.  The branch map is a function of the upstream paths in their order,
    the selected scopes, the dataset identifiers, the base path and the
    environment, and of nothing else: two invocations that agree on these
    give the same outcome, the same branch indices with the same metadata
    or the same exception, whatever else differs between the two tasks and
    whether or not the upstream files exist. *)
Theorem create_branch_map_deterministic self1 self2 env branches1 branches2 :
  path <$> branches1 = path <$> branches2 ->
  scopes self1 = scopes self2 ->
  nick self1 = nick self2 ->
  era self1 = era self2 ->
  sampletype self1 = sampletype self2 ->
  wlcg_path self1 = wlcg_path self2 ->
  create_branch_map expandvars self1 env branches1 =
  create_branch_map expandvars self2 env branches2.
Proof. intros. unfold create_branch_map. by apply branch_loop_reads. Qed.

Lemma int_truediv_floor a b q :
  (0 <= a)%Z -> (0 <= b)%Z -> int_truediv a b = Ok q -> q = (a / b)%Z.
Proof.
  unfold int_truediv. intros Ha Hb. destruct (b =? 0)%Z eqn:E; [done|].
  intros [= <-]. apply Z.eqb_neq in E. apply Z.quot_div_nonneg; lia.
Qed.

(** Invariant of the loop: the indices in the map are those below the
    counter, each with its counter over the number of scopes, and the
    counter advances by one per eligible file. *)
Lemma branch_loop_invariant self env branches branch_map counter m :
  (0 <= counter)%Z ->
  (forall i, is_Some (branch_map !! i) <-> (0 <= i < counter)%Z) ->
  (forall i b, branch_map !! i = Some b ->
     bd_filecounter b = (i / Z.of_nat (length (scopes self)))%Z) ->
  branch_loop expandvars self env branches branch_map counter = Ok m ->
  (forall i, is_Some (m !! i) <->
     (0 <= i < counter + Z.of_nat (length (List.filter (eligible self) branches)))%Z) /\
  (forall i b, m !! i = Some b ->
     bd_filecounter b = (i / Z.of_nat (length (scopes self)))%Z).
Proof.
  revert branch_map counter.
  induction branches as [|f branches IH]; intros branch_map counter Hc Hdom Hcnt; simpl.
  - intros [= <-]. split; [|done]. intros i. rewrite Hdom. lia.
  - unfold eligible at 1, scope_of.
    destruct (endswith (path f) ".root"); simpl; [|by apply IH].
    destruct (second_to_last (split (path f) SLASH)) as [scope|]; [|done].
    destruct (str_in scope (scopes self)); [|by apply IH].
    destruct (int_truediv counter (Z.of_nat (length (scopes self))))
      as [q|] eqn:Hq; [|done].
    apply int_truediv_floor in Hq; [|lia..]. subst q.
    intros Hloop. apply IH in Hloop.
    + destruct Hloop as [Hdom' Hcnt']. split; [|done].
      intros i. rewrite Hdom'. simpl. lia.
    + lia.
    + intros i. rewrite lookup_insert_is_Some', Hdom. lia.
    + intros i b. rewrite lookup_insert_Some.
      intros [[<- <-]|[_ Hb]]; [done|by apply Hcnt].
Qed.

(** The loop leaves the entries below the counter as they are, and the
    k-th eligible file to come is read by the branch k above the counter. *)
Lemma branch_loop_files self env branches branch_map counter m :
  branch_loop expandvars self env branches branch_map counter = Ok m ->
  (forall i, (i < counter)%Z -> m !! i = branch_map !! i) /\
  (forall k f, List.filter (eligible self) branches !! k = Some f ->
     exists b, m !! (counter + Z.of_nat k)%Z = Some b /\
       bd_inputfile b = expandvars env (wlcg_path self) +:+ path f /\
       scope_of f = Some (bd_scope b)).
Proof.
  revert branch_map counter.
  induction branches as [|f branches IH]; intros branch_map counter; simpl.
  - intros [= <-]. by split.
  - unfold eligible at 1, scope_of.
    destruct (endswith (path f) ".root"); simpl; [|by apply IH].
    destruct (second_to_last (split (path f) SLASH)) as [scope|] eqn:Hscope;
      [|done].
    destruct (str_in scope (scopes self)); [|by apply IH].
    destruct (int_truediv counter (Z.of_nat (length (scopes self))))
      as [q|]; [|done].
    intros Hloop. apply IH in Hloop as [Hkeep Hfiles]. split.
    + intros i Hi. rewrite Hkeep by lia. apply lookup_insert_ne. lia.
    + intros [|k] g Hg.
      * injection Hg as <-. eexists. rewrite Z.add_0_r, Hkeep by lia.
        rewrite lookup_insert_eq. split; [done|]. simpl.
        split; [done|]. unfold scope_of. by rewrite Hscope.
      * apply Hfiles in Hg as (b & Hb & Hin).
        exists b. split; [|done]. rewrite <- Hb. f_equal. lia.
Qed.

(** C5, as the code has it.  In the map [create_branch_map] returns, the
    branch indices are 0, 1, ... up to the number of eligible files, branch
    [k] reads the [k]-th eligible file, and the file counter of every branch
    is the floor of its index over the number of selected scopes.  Branches
    that read files of the same name get the same counter when the upstream
    lists the eligible files source by source, the files of one source
    taking one block of as many consecutive places as there are selected
    scopes. *)
Theorem branch_file_counter self env branches m :
  create_branch_map expandvars self env branches = Ok m ->
  let files := List.filter (eligible self) branches in
  let n := length (scopes self) in
  (forall i, is_Some (m !! i) <-> (0 <= i < Z.of_nat (length files))%Z) /\
  (forall i b, m !! i = Some b -> bd_filecounter b = (i / Z.of_nat n)%Z) /\
  (forall k f, files !! k = Some f ->
     exists b, m !! Z.of_nat k = Some b /\
       bd_inputfile b = expandvars env (wlcg_path self) +:+ path f /\
       scope_of f = Some (bd_scope b)) /\
  ((forall k l f g,
      files !! k = Some f -> files !! l = Some g ->
      basename (path f) = basename (path g) -> k / n = l / n) ->
   forall k l f g bk bl,
     files !! k = Some f -> files !! l = Some g ->
     basename (path f) = basename (path g) ->
     m !! Z.of_nat k = Some bk -> m !! Z.of_nat l = Some bl ->
     bd_filecounter bk = bd_filecounter bl).
Proof.
  intros Hmap files n. unfold create_branch_map in Hmap.
  pose proof (branch_loop_files _ _ _ _ _ _ Hmap) as [_ Hfiles].
  apply branch_loop_invariant in Hmap as [Hdom Hcnt].
  - split; [done|]. split; [done|]. split; [done|].
    intros Hblocks k l f g bk bl Hk Hl Hsame Hbk Hbl.
    rewrite (Hcnt _ _ Hbk), (Hcnt _ _ Hbl).
    rewrite <- !(Nat2Z.inj_div). f_equal. by eapply Hblocks.
  - lia.
  - intros i. rewrite lookup_empty. split; [by intros [? ?]|lia].
  - intros i b. by rewrite lookup_empty.
Qed.

End BranchMap.

(** *** The scenario: four files, two selected scopes *)

(** No variable to expand. *)
Definition no_expansion (env : environ) (text : string) : string := text.

Definition friends (friend : string) : task :=
  {| all_sampletypes := ["data"]; all_eras := ["2018"];
     scopes := ["scope_a"; "scope_b"];
     shifts := "None"; analysis := "tau"; friend_config := "friend";
     config := "config"; friend_name := friend; nick := "nick";
     sampletype := "data"; era := "2018"; production_tag := "tag";
     files_per_task := 1; wlcg_path := "root://store/" |}.

(** The upstream files, alternating scopes. *)
Definition alternating (there : bool) : list target :=
  [ {| path := "tag/CROWNRun/2018/nick/scope_a/nick_0.root"; present := there |};
    {| path := "tag/CROWNRun/2018/nick/scope_b/nick_0.root"; present := there |};
    {| path := "tag/CROWNRun/2018/nick/scope_a/nick_1.root"; present := there |};
    {| path := "tag/CROWNRun/2018/nick/scope_b/nick_1.root"; present := there |} ].

(** The same files, listed scope by scope. *)
Definition scope_by_scope : list target :=
  [ {| path := "tag/CROWNRun/2018/nick/scope_a/nick_0.root"; present := true |};
    {| path := "tag/CROWNRun/2018/nick/scope_a/nick_1.root"; present := true |};
    {| path := "tag/CROWNRun/2018/nick/scope_b/nick_0.root"; present := true |};
    {| path := "tag/CROWNRun/2018/nick/scope_b/nick_1.root"; present := true |} ].

Definition branch (scope file : string) (filecounter : Z) : branch_data :=
  {| bd_scope := scope; bd_nick := "nick"; bd_era := "2018";
     bd_sampletype := "data";
     bd_inputfile := "root://store/tag/CROWNRun/2018/nick/" +:+ scope +:+ "/" +:+ file;
     bd_filecounter := filecounter |}.

(** Four files of two selected scopes, alternating: branches 0 to 3 with
    the file counters 0, 0, 1, 1. *)
Example alternating_branch_map :
  create_branch_map no_expansion (friends "ff") ∅ (alternating true) =
  Ok (<[3%Z := branch "scope_b" "nick_1.root" 1]>
      (<[2%Z := branch "scope_a" "nick_1.root" 1]>
       (<[1%Z := branch "scope_b" "nick_0.root" 0]>
        (<[0%Z := branch "scope_a" "nick_0.root" 0]> ∅)))).
Proof. vm_compute. reflexivity. Qed.

(** Listed scope by scope, the two files of source 0 get the counters 0
    and 1. *)
Example scope_by_scope_branch_map :
  create_branch_map no_expansion (friends "ff") ∅ scope_by_scope =
  Ok (<[3%Z := branch "scope_b" "nick_1.root" 1]>
      (<[2%Z := branch "scope_b" "nick_0.root" 1]>
       (<[1%Z := branch "scope_a" "nick_1.root" 0]>
        (<[0%Z := branch "scope_a" "nick_0.root" 0]> ∅)))).
Proof. vm_compute. reflexivity. Qed.

(** C5, as stated, fails: branches that read the files of one source, one
    per scope, need not share a counter.  With the files listed scope by
    scope, [scope_a/nick_0.root] is branch 0 with counter 0 and
    [scope_b/nick_0.root] is branch 2 with counter 1. *)
Lemma same_source_counters_differ :
  ~ (forall self env branches m i j bi bj,
       create_branch_map no_expansion self env branches = Ok m ->
       m !! i = Some bi -> m !! j = Some bj ->
       basename (bd_inputfile bi) = basename (bd_inputfile bj) ->
       bd_filecounter bi = bd_filecounter bj).
Proof.
  intros H.
  specialize (H (friends "ff") ∅ scope_by_scope _ 0%Z 2%Z
                (branch "scope_a" "nick_0.root" 0)
                (branch "scope_b" "nick_0.root" 1)
                scope_by_scope_branch_map eq_refl eq_refl eq_refl).
  discriminate H.
Qed.

Lemma create_branch_map_deterministic_witness :
  create_branch_map no_expansion (friends "ff") ∅ (alternating true) =
  create_branch_map no_expansion (friends "other") ∅ (alternating false).
Proof.
  apply (create_branch_map_deterministic no_expansion (friends "ff")
           (friends "other") ∅ (alternating true) (alternating false));
    reflexivity.
Defined.

(** The scenario through the theorem: the indices are the four below 4,
    and branch 3 has counter 3 / 2 = 1. *)
Lemma branch_file_counter_witness :
  exists m,
    create_branch_map no_expansion (friends "ff") ∅ (alternating true) = Ok m /\
    (forall i, is_Some (m !! i) <-> (0 <= i < 4)%Z) /\
    (forall b, m !! 3%Z = Some b -> bd_filecounter b = 1%Z).
Proof.
  eexists. split; [apply alternating_branch_map|].
  destruct (branch_file_counter no_expansion (friends "ff") ∅ (alternating true) _
              alternating_branch_map) as (Hdom & Hcnt & _).
  split; [exact Hdom|]. intros b Hb. exact (Hcnt _ _ Hb).
Defined.

(** *** Errors, ignored files and growing collections *)

Lemma split_not_nil s c : split s c <> [].
Proof.
  destruct s as [|d s]; simpl; [done|].
  destruct (ascii_eqb c d); [done|]. by destruct (split s c).
Qed.

(** A text splits into one segment exactly when the separator is not in
    it. *)
Lemma split_one_segment s c :
  length (split s c) <= 1 <-> contains c s = false.
Proof.
  induction s as [|d s IH]; simpl; [split; [done|lia]|].
  destruct (ascii_eqb c d); simpl.
  - pose proof (split_not_nil s c). destruct (split s c); [done|].
    simpl. split; [lia|done].
  - pose proof (split_not_nil s c). destruct (split s c) as [|l ls]; [done|].
    simpl in *. done.
Qed.

Lemma second_to_last_none {A} (l : list A) :
  second_to_last l = None <-> length l <= 1.
Proof.
  unfold second_to_last. rewrite <- (length_rev l).
  destruct (rev l) as [|x [|y l']]; simpl; split; (done || lia).
Qed.

Lemma scope_of_none f : scope_of f = None <-> contains SLASH (path f) = false.
Proof. unfold scope_of. by rewrite second_to_last_none, split_one_segment. Qed.

Section Errors.

Variable expandvars : environ -> string -> string.

Lemma branch_loop_raises self env branches branch_map counter e :
  branch_loop expandvars self env branches branch_map counter = Raise e ->
  e = IndexError "list index out of range" /\
  exists f, f ∈ branches /\ endswith (path f) ".root" = true /\
            contains SLASH (path f) = false.
Proof.
  revert branch_map counter.
  induction branches as [|f branches IH]; intros branch_map counter; simpl;
    [done|].
  destruct (endswith (path f) ".root") eqn:Hroot; simpl.
  - destruct (second_to_last (split (path f) SLASH)) as [scope|] eqn:Hscope.
    + destruct (str_in scope (scopes self)) eqn:Hin.
      * unfold int_truediv.
        destruct (Z.of_nat (length (scopes self)) =? 0)%Z eqn:Hlen.
        { apply Z.eqb_eq in Hlen. by destruct (scopes self). }
        intros H. apply IH in H as (-> & g & Hg & Hrest).
        split; [done|]. exists g. split; [by apply list_elem_of_further|done].
      * intros H. apply IH in H as (-> & g & Hg & Hrest).
        split; [done|]. exists g. split; [by apply list_elem_of_further|done].
    + intros [= <-]. split; [done|]. exists f.
      split; [apply list_elem_of_here|]. split; [done|].
      by apply scope_of_none.
  - intros H. apply IH in H as (-> & g & Hg & Hrest).
    split; [done|]. exists g. split; [by apply list_elem_of_further|done].
Qed.

Lemma branch_loop_returns self env branches branch_map counter :
  (forall f, f ∈ branches -> endswith (path f) ".root" = true ->
     contains SLASH (path f) = true) ->
  exists m, branch_loop expandvars self env branches branch_map counter = Ok m.
Proof.
  intros Hslash.
  destruct (branch_loop expandvars self env branches branch_map counter)
    as [m|e] eqn:Hloop; [by exists m|].
  apply branch_loop_raises in Hloop as (_ & f & Hf & Hroot & Hnone).
  rewrite (Hslash f Hf Hroot) in Hnone. discriminate.
Qed.

(** The only way [create_branch_map] fails is the [IndexError] of a data
    file whose path has no slash in it, so no second-to-last segment; when
    every data file has a slash in its path a map is returned.  The division
    by the number of scopes never fails: with no scope selected no file gets
    that far. *)
Theorem create_branch_map_only_index_error self env branches :
  (forall e,
     create_branch_map expandvars self env branches = Raise e ->
     e = IndexError "list index out of range" /\
     exists f, f ∈ branches /\ endswith (path f) ".root" = true /\
               contains SLASH (path f) = false) /\
  ((forall f, f ∈ branches -> endswith (path f) ".root" = true ->
      contains SLASH (path f) = true) ->
   exists m, create_branch_map expandvars self env branches = Ok m).
Proof.
  split.
  - intros e. apply branch_loop_raises.
  - apply branch_loop_returns.
Qed.

Lemma branch_loop_eligible self env branches branch_map counter m :
  branch_loop expandvars self env branches branch_map counter = Ok m ->
  branch_loop expandvars self env (List.filter (eligible self) branches)
    branch_map counter = Ok m.
Proof.
  revert branch_map counter.
  induction branches as [|f branches IH]; intros branch_map counter; simpl;
    [done|].
  unfold eligible at 1, scope_of.
  destruct (endswith (path f) ".root") eqn:Hroot; simpl; [|by apply IH].
  destruct (second_to_last (split (path f) SLASH)) as [scope|] eqn:Hscope;
    [|done].
  destruct (str_in scope (scopes self)) eqn:Hin; [|by apply IH].
  simpl. rewrite Hroot, Hscope, Hin. simpl.
  destruct (int_truediv counter (Z.of_nat (length (scopes self)))); [|done].
  by apply IH.
Qed.

(** Files that are not data files and files of scopes that are not selected
    take no branch index and leave no trace: the map is the map of the
    eligible files alone. *)
Theorem create_branch_map_of_eligible self env branches m :
  create_branch_map expandvars self env branches = Ok m ->
  create_branch_map expandvars self env (List.filter (eligible self) branches)
    = Ok m.
Proof. apply branch_loop_eligible. Qed.

Lemma branch_loop_app self env branches more branch_map counter m' :
  branch_loop expandvars self env (branches ++ more) branch_map counter = Ok m' ->
  exists m,
    branch_loop expandvars self env branches branch_map counter = Ok m /\
    branch_loop expandvars self env more m
      (counter + Z.of_nat (length (List.filter (eligible self) branches)))%Z = Ok m'.
Proof.
  revert branch_map counter.
  induction branches as [|f branches IH]; intros branch_map counter; simpl.
  - rewrite Z.add_0_r. eauto.
  - unfold eligible at 1, scope_of.
    destruct (endswith (path f) ".root"); simpl; [|by apply IH].
    destruct (second_to_last (split (path f) SLASH)) as [scope|]; [|done].
    destruct (str_in scope (scopes self)); [|by apply IH].
    destruct (int_truediv counter (Z.of_nat (length (scopes self)))); [|done].
    intros H. apply IH in H as (m & Hm & Hmore). exists m. split; [done|].
    simpl. rewrite <- Hmore. f_equal. lia.
Qed.

(** Files added at the end of the upstream collection leave the branches
    there were as they are: same index, same metadata. *)
Theorem create_branch_map_grows self env branches more m m' :
  create_branch_map expandvars self env branches = Ok m ->
  create_branch_map expandvars self env (branches ++ more) = Ok m' ->
  forall i b, m !! i = Some b -> m' !! i = Some b.
Proof.
  unfold create_branch_map. intros Hm Hm' i b Hb.
  apply branch_loop_app in Hm' as (m1 & Hm1 & Hmore).
  rewrite Hm in Hm1. injection Hm1 as <-.
  apply (BranchMapper.branch_loop_invariant expandvars) in Hm as [Hdom _].
  - apply (BranchMapper.branch_loop_files expandvars) in Hmore as [Hkeep _].
    rewrite Hkeep; [done|]. apply Hdom. eauto.
  - lia.
  - intros j. rewrite lookup_empty. split; [by intros [? ?]|lia].
  - intros j c. by rewrite lookup_empty.
Qed.

End Errors.

Lemma create_branch_map_of_eligible_witness :
  create_branch_map no_expansion (friends "ff") ∅
    (List.filter (eligible (friends "ff"))
       ({| path := "tag/CROWNRun/2018/nick/scope_c/nick_0.root"; present := true |}
        :: {| path := "tag/CROWNRun/2018/nick/scope_a/nick_0.log"; present := true |}
        :: alternating true)) =
  create_branch_map no_expansion (friends "ff") ∅ (alternating true).
Proof.
  rewrite alternating_branch_map.
  apply (create_branch_map_of_eligible no_expansion (friends "ff") ∅
           ({| path := "tag/CROWNRun/2018/nick/scope_c/nick_0.root"; present := true |}
            :: {| path := "tag/CROWNRun/2018/nick/scope_a/nick_0.log"; present := true |}
            :: alternating true)).
  vm_compute. reflexivity.
Defined.

Lemma create_branch_map_grows_witness :
  exists m',
    create_branch_map no_expansion (friends "ff") ∅
      (alternating true ++ scope_by_scope) = Ok m' /\
    m' !! 3%Z = Some (branch "scope_b" "nick_1.root" 1).
Proof.
  destruct (create_branch_map no_expansion (friends "ff") ∅
              (alternating true ++ scope_by_scope)) as [m'|e] eqn:E;
    [|vm_compute in E; discriminate E].
  exists m'. split; [reflexivity|].
  apply (create_branch_map_grows no_expansion (friends "ff") ∅ (alternating true)
           scope_by_scope _ m' alternating_branch_map E 3%Z).
  vm_compute. reflexivity.
Defined.

(** *** The outputs of a branch *)

Definition UNDERSCORE : ascii := chr 95.

Lemma append_inj_length a b c d :
  String.length a = String.length b -> a +:+ c = b +:+ d -> a = b /\ c = d.
Proof.
  revert b. induction a as [|x a IH]; intros [|y b]; try done.
  rewrite !EnvParser.append_cons. intros [= Hlen] [= -> H].
  destruct (IH _ Hlen H) as [-> ->]. done.
Qed.

Lemma length_append s t :
  String.length (s +:+ t) = (String.length s + String.length t)%nat.
Proof.
  induction s as [|c s IH]; [done|]. rewrite EnvParser.append_cons. simpl.
  by rewrite IH.
Qed.

Lemma append_cancel_right a b s : a +:+ s = b +:+ s -> a = b.
Proof.
  intros H. apply (append_inj_length a b s s); [|done].
  apply (f_equal String.length) in H. rewrite !length_append in H. lia.
Qed.

Lemma append_suffix_inj a b x y :
  String.length x = String.length y -> a +:+ x = b +:+ y -> a = b /\ x = y.
Proof.
  intros Hlen H. apply append_inj_length; [|done].
  apply (f_equal String.length) in H. rewrite !length_append in H. lia.
Qed.

Lemma append_last_separator c a b x y :
  contains c x = false -> contains c y = false ->
  a +:+ String c x = b +:+ String c y -> a = b /\ x = y.
Proof.
  intros Hx Hy. revert b. induction a as [|d a IH]; intros [|e b].
  - by intros [= ->].
  - rewrite EnvParser.append_cons. intros [= <- ->].
    rewrite EnvParser.contains_app in Hx. simpl in Hx.
    unfold ascii_eqb in Hx. rewrite Ascii.eqb_refl in Hx.
    by rewrite orb_true_r in Hx.
  - rewrite EnvParser.append_cons. intros [= -> <-].
    rewrite EnvParser.contains_app in Hy. simpl in Hy.
    unfold ascii_eqb in Hy. rewrite Ascii.eqb_refl in Hy.
    by rewrite orb_true_r in Hy.
  - rewrite !EnvParser.append_cons. intros [= -> H].
    by destruct (IH _ H) as [-> ->].
Qed.

Lemma pretty_N_char_no_underscore d : ascii_eqb UNDERSCORE (pretty_N_char d) = false.
Proof. unfold pretty_N_char. by repeat case_match. Qed.

Lemma pretty_N_go_no_underscore x s :
  contains UNDERSCORE s = false -> contains UNDERSCORE (pretty_N_go x s) = false.
Proof.
  revert s. induction (N.lt_wf_0 x) as [x _ IH]. intros s Hs.
  destruct (decide (x = 0%N)) as [->|Hx]; [by rewrite pretty_N_go_0|].
  rewrite pretty_N_go_step by lia. apply IH.
  - apply N.div_lt; lia.
  - cbn [contains]. by rewrite pretty_N_char_no_underscore.
Qed.

Lemma pretty_N_no_underscore (x : N) : contains UNDERSCORE (pretty x) = false.
Proof.
  unfold pretty, pretty_N. destruct (decide (x = 0%N)); [done|].
  by apply pretty_N_go_no_underscore.
Qed.

Lemma pretty_Z_no_underscore (x : Z) : contains UNDERSCORE (pretty x) = false.
Proof.
  destruct x as [|p|p]; [done|apply pretty_N_no_underscore|].
  change (pretty (Z.neg p)) with ("-" +:+ pretty (N.pos p)).
  rewrite EnvParser.contains_app. by rewrite pretty_N_no_underscore.
Qed.

Lemma string_prefix_nil s : String.prefix "" s = true.
Proof. by destruct s. Qed.

Lemma startswith_after_prefix prefix c rest1 rest2 :
  startswith (prefix +:+ String c rest1) "/" =
  startswith (prefix +:+ String c rest2) "/".
Proof.
  unfold startswith.
  destruct prefix as [|d prefix];
    rewrite ?EnvParser.append_nil, ?EnvParser.append_cons; cbn [String.prefix];
    (destruct (ascii_dec _ _); [|done]); by rewrite !string_prefix_nil.
Qed.

Lemma remote_path_inj self prefix rest1 rest2 :
  remote_path self [prefix +:+ String SLASH rest1] =
  remote_path self [prefix +:+ String SLASH rest2] ->
  rest1 = rest2.
Proof.
  unfold remote_path. cbn [app path_join fold_left].
  set (base := path_join2 (production_tag self) "CROWNFriends").
  unfold path_join2.
  rewrite (startswith_after_prefix prefix SLASH rest1 rest2).
  destruct (startswith _ "/"); [|destruct (_ || _)]; intros H;
    repeat apply (inj (String.append _)) in H; by injection H.
Qed.

Section Outputs.

Context {OS : Type} (sys : system OS).

(** The data file and the quantities map of a branch. *)
Definition root_file (self : task) (branch : branch_data) : string :=
  friend_name self +:+ "/" +:+ bd_era branch +:+ "/" +:+ bd_nick branch +:+ "/" +:+
  bd_scope branch +:+ "/" +:+ bd_nick branch +:+ "_" +:+
  pretty (bd_filecounter branch) +:+ ".root".

Definition quantities_map (self : task) (branch : branch_data) : string :=
  friend_name self +:+ "/" +:+ bd_era branch +:+ "/" +:+ bd_nick branch +:+ "/" +:+
  bd_scope branch +:+ "/" +:+ bd_era branch +:+ "_" +:+ bd_nick branch +:+ "_" +:+
  bd_scope branch +:+ "_quantities_map.json".

Lemma nicks_cases self branch path :
  path ∈ nicks self branch ->
  path = root_file self branch \/
  path = quantities_map self branch /\ bd_filecounter branch = 0%Z.
Proof.
  unfold nicks. intros H. apply elem_of_app in H as [H|H].
  - apply list_elem_of_singleton in H. by left.
  - destruct (Z.eqb_spec (bd_filecounter branch) 0); [|by apply elem_of_nil in H].
    apply list_elem_of_singleton in H. by right.
Qed.

Lemma root_file_inj b1 b2 rest1 rest2 :
  bd_scope b1 +:+ "/" +:+ bd_nick b1 +:+ "_" +:+ pretty (bd_filecounter b1) +:+ ".root"
  = rest1 ->
  bd_scope b2 +:+ "/" +:+ bd_nick b1 +:+ "_" +:+ pretty (bd_filecounter b2) +:+ ".root"
  = rest2 ->
  rest1 = rest2 ->
  bd_scope b1 = bd_scope b2 /\ bd_filecounter b1 = bd_filecounter b2.
Proof.
  intros <- <- H.
  assert (Hgroup : forall s x,
            s +:+ "/" +:+ bd_nick b1 +:+ "_" +:+ x +:+ ".root" =
            (s +:+ "/" +:+ bd_nick b1) +:+ String UNDERSCORE (x +:+ ".root")).
  { intros s x. by rewrite !EnvParser.string_app_assoc. }
  rewrite !Hgroup in H.
  apply append_last_separator in H as [Hscope Hcounter].
  - apply append_cancel_right in Hscope, Hcounter.
    split; [done|]. by apply (inj pretty).
  - rewrite EnvParser.contains_app. by rewrite pretty_Z_no_underscore.
  - rewrite EnvParser.contains_app. by rewrite pretty_Z_no_underscore.
Qed.

Lemma quantities_map_inj era nick scope1 scope2 :
  scope1 +:+ "/" +:+ era +:+ "_" +:+ nick +:+ "_" +:+ scope1 +:+ "_quantities_map.json" =
  scope2 +:+ "/" +:+ era +:+ "_" +:+ nick +:+ "_" +:+ scope2 +:+ "_quantities_map.json" ->
  scope1 = scope2.
Proof.
  intros H. apply append_inj_length in H as [H _]; [done|].
  apply (f_equal String.length) in H. rewrite !length_append in H. lia.
Qed.

Lemma root_file_is_no_quantities_map a b :
  a +:+ ".root" <> b +:+ "_quantities_map.json".
Proof.
  intros H.
  replace (b +:+ "_quantities_map.json")
    with ((b +:+ "_quantities_map") +:+ ".json") in H
    by (by rewrite EnvParser.string_app_assoc).
  by apply append_suffix_inj in H as [_ H].
Qed.

(** Two branches of one sample share an output target only when they have
    the same scope and the same file counter: the data file names the scope
    and the counter, the quantities map names the scope and is declared for
    the counter 0 only, and no data file is a quantities map. *)
Theorem output_shared_by_one_branch self b1 b2 (w1 w2 : world OS)
    targets1 targets2 w1' w2' target :
  bd_era b1 = bd_era b2 ->
  bd_nick b1 = bd_nick b2 ->
  output sys self b1 w1 = (Ok targets1, w1') ->
  output sys self b2 w2 = (Ok targets2, w2') ->
  target ∈ targets1 ->
  target ∈ targets2 ->
  bd_scope b1 = bd_scope b2 /\ bd_filecounter b1 = bd_filecounter b2.
Proof.
  intros Hera Hnick Hout1 Hout2 Hin1 Hin2.
  assert (Hreturned : forall b (w : world OS) targets w',
            output sys self b w = (Ok targets, w') ->
            targets = List.map (fun path => remote_path self [path]) (nicks self b)).
  { intros b w targets w'. unfold output, mbind, M_bind, bind.
    destruct (touch_parents sys _ w) as [[[]|e] w0]; [|done]. by intros [= <- _]. }
  apply Hreturned in Hout1, Hout2. subst targets1 targets2.
  apply list_elem_of_In, in_map_iff in Hin1 as (path1 & Hpath1 & Hin1).
  apply list_elem_of_In, in_map_iff in Hin2 as (path2 & Hpath2 & Hin2).
  apply list_elem_of_In, nicks_cases in Hin1, Hin2.
  rewrite <- Hpath2 in Hpath1. clear Hpath2.
  assert (Hpaths :
    forall rest1 rest2,
      path1 = friend_name self +:+ "/" +:+ bd_era b1 +:+ "/" +:+ bd_nick b1 +:+ "/" +:+
              rest1 ->
      path2 = friend_name self +:+ "/" +:+ bd_era b1 +:+ "/" +:+ bd_nick b1 +:+ "/" +:+
              rest2 ->
      rest1 = rest2).
  { intros rest1 rest2 -> ->. apply remote_path_inj in Hpath1.
    by repeat apply (inj (String.append _)) in Hpath1. }
  destruct Hin1 as [H1|[H1 Hzero1]], Hin2 as [H2|[H2 Hzero2]];
    unfold root_file, quantities_map in H1, H2; rewrite <- ?Hera, <- ?Hnick in H2;
    specialize (Hpaths _ _ H1 H2).
  - by apply (root_file_inj b1 b2 _ _ eq_refl eq_refl).
  - rewrite <- !EnvParser.string_app_assoc in Hpaths.
    by apply root_file_is_no_quantities_map in Hpaths.
  - symmetry in Hpaths. rewrite <- !EnvParser.string_app_assoc in Hpaths.
    by apply root_file_is_no_quantities_map in Hpaths.
  - apply quantities_map_inj in Hpaths. split; [done|]. by rewrite Hzero1, Hzero2.
Qed.

End Outputs.

(** Two branches of different input files with the scope and the file
    counter in common declare the same data file. *)
Lemma output_shared_by_one_branch_witness :
  bd_scope (branch "scope_a" "nick_0.root" 0) =
    bd_scope (branch "scope_a" "nick_1.root" 0) /\
  bd_filecounter (branch "scope_a" "nick_0.root" 0) =
    bd_filecounter (branch "scope_a" "nick_1.root" 0).
Proof.
  set (sys := Runner.uniform_system 0 EmptyString EmptyString (Runner.failing_child 0)).
  destruct (output sys (friends "ff") (branch "scope_a" "nick_0.root" 0) Runner.idle)
    as [[targets1|e] w1] eqn:E1; [|vm_compute in E1; discriminate E1].
  destruct (output sys (friends "ff") (branch "scope_a" "nick_1.root" 0) Runner.idle)
    as [[targets2|e] w2] eqn:E2; [|vm_compute in E2; discriminate E2].
  apply (output_shared_by_one_branch sys (friends "ff") _ _ _ _ _ _ _ _
           "tag/CROWNFriends/ff/2018/nick/scope_a/nick_0.root"
           eq_refl eq_refl E1 E2).
  - pose proof E1 as E. vm_compute in E. injection E as <- _. apply list_elem_of_here.
  - pose proof E2 as E. vm_compute in E. injection E as <- _. apply list_elem_of_here.
Defined.

End BranchMapper.

(** ** Job configuration *)

Module JobConfiguration.

Import Framework.

(** The count a text of decimal digits writes; none for any other text. *)
Definition digit_value (c : ascii) : option N :=
  let n := N_of_ascii c in
  if ((48 <=? n) && (n <=? 57))%N then Some (n - 48)%N else None.

Fixpoint digits_value (acc : N) (s : string) : option N :=
  match s with
  | EmptyString => Some acc
  | String c rest =>
    match digit_value c with
    | Some d => digits_value (10 * acc + d)%N rest
    | None => None
    end
  end.

Definition decimal_count (s : string) : option N :=
  match s with
  | EmptyString => None
  | _ => digits_value 0 s
  end.

(** What is known of [float] on a text of decimal digits: it is positive
    exactly when the count written is. *)
Definition float_reads_counts (float_positive : string -> option bool) : Prop :=
  forall s count, decimal_count s = Some count ->
    float_positive s = Some (0 <? count)%N.

Section JobConfig.

Context {OS : Type} (sys : system OS).
Variable float_positive : string -> option bool.
Variable expandvars : environ -> string -> string.
Variable wlcg_target_path : string -> string.
Variable startup_time : string.

Lemma bind_ok {A B} (m : M OS A) (k : A -> M OS B) (w : world OS) b w' :
  (m ≫= k) w = (Ok b, w') ->
  exists a w1, m w = (Ok a, w1) /\ k a w1 = (Ok b, w').
Proof.
  unfold mbind, M_bind, bind. destruct (m w) as [[a|e] w1]; [eauto|discriminate].
Qed.

(** The lines of a descriptor, with or without the GPU line. *)
Definition the_content (self : workflow) (gpu_line : bool) : list (string * string) :=
  [("accounting_group", htcondor_accounting_group self)] ++
  (if negb (String.eqb (htcondor_requirements self) "")
   then [("Requirements", htcondor_requirements self)] else []) ++
  [("+RemoteJob", htcondor_remote_job self);
   ("universe", htcondor_universe self);
   ("docker_image", htcondor_docker_image self);
   ("+RequestWalltime", htcondor_walltime self);
   ("x509userproxy", htcondor_user_proxy self);
   ("request_cpus", htcondor_request_cpus self)] ++
  (if gpu_line then [("request_gpus", htcondor_request_gpus self)] else []) ++
  [("RequestMemory", htcondor_request_memory self);
   ("RequestDisk", htcondor_request_disk self)].

(** The lines of a descriptor that came back: the fixed ones, and the GPU
    line between [request_cpus] and [RequestMemory] exactly when [float]
    of the request is positive. *)
Lemma htcondor_job_config_content self config job_num branches (w : world OS)
    config' w' :
  htcondor_job_config sys float_positive expandvars wlcg_target_path startup_time
    self config job_num branches w = (Ok config', w') ->
  exists positive,
    float_positive (htcondor_request_gpus self) = Some positive /\
    custom_content config' = the_content self positive.
Proof.
  unfold htcondor_job_config. intros H.
  apply bind_ok in H as (analysis_name & w1 & _ & H).
  apply bind_ok in H as (analysis_path & w2 & _ & H).
  apply bind_ok in H as (content & w3 & Hcontent & H).
  repeat match type of H with
         | (_ ≫= _) _ = (Ok _, _) => apply bind_ok in H as (? & ? & _ & H)
         end.
  injection H as <- _. simpl.
  destruct (float_positive (htcondor_request_gpus self)) as [[|]|];
    [| |discriminate]; injection Hcontent as <- _;
    [exists true|exists false]; (split; [done|]); unfold the_content;
    destruct (negb (String.eqb (htcondor_requirements self) ""));
    simpl; by rewrite <- ?app_assoc.
Qed.

(** C6.  For a GPU request that writes a count in decimal digits, the
    descriptor that comes back has no [request_gpus] line exactly when the
    count is zero; when the count is not zero it has the line, with the
    request as its value, and no other [request_gpus] line. *)
Theorem gpu_request_omitted_iff_zero self config job_num branches (w : world OS)
    config' w' count :
  float_reads_counts float_positive ->
  decimal_count (htcondor_request_gpus self) = Some count ->
  htcondor_job_config sys float_positive expandvars wlcg_target_path startup_time
    self config job_num branches w = (Ok config', w') ->
  (count = 0%N <-> forall v, ("request_gpus", v) ∉ custom_content config') /\
  (count <> 0%N ->
   ("request_gpus", htcondor_request_gpus self) ∈ custom_content config') /\
  (forall v, ("request_gpus", v) ∈ custom_content config' ->
   v = htcondor_request_gpus self).
Proof.
  intros Hfloat Hcount Hconfig.
  apply htcondor_job_config_content in Hconfig as (positive & Hpos & ->).
  rewrite (Hfloat _ _ Hcount) in Hpos. injection Hpos as <-.
  assert (Hcases : (count = 0 /\ (0 <? count) = false \/
                    count <> 0 /\ (0 <? count) = true)%N).
  { destruct (N.ltb_spec 0 count); [right|left]; split; (done || lia). }
  destruct Hcases as [[Hzero ->]|[Hnonzero ->]].
  - assert (Hnone : forall v,
              ("request_gpus", v) ∉ the_content self false).
    { intros v Hin. unfold the_content in Hin.
      destruct (negb (String.eqb (htcondor_requirements self) "")); simpl in Hin;
        repeat (apply elem_of_cons in Hin as [Hin|Hin]; [discriminate Hin|]);
        by apply elem_of_nil in Hin. }
    split; [done|]. split; [done|]. intros v Hin. by apply Hnone in Hin.
  - assert (Hin : ("request_gpus", htcondor_request_gpus self)
                  ∈ the_content self true).
    { unfold the_content.
      destruct (negb (String.eqb (htcondor_requirements self) "")); simpl;
        repeat first [apply list_elem_of_here | apply list_elem_of_further]. }
    split; [|split; [done|]].
    + split; [done|]. intros Hnone. by apply Hnone in Hin.
    + clear Hin. intros v Hin. unfold the_content in Hin.
      destruct (negb (String.eqb (htcondor_requirements self) "")); simpl in Hin;
        repeat (apply elem_of_cons in Hin as [Hin|Hin];
                [first [discriminate Hin | by injection Hin]|]);
        by apply elem_of_nil in Hin.
Qed.

End JobConfig.

(** *** The scenario: requests of 0 and of 1 GPU *)

(** [float] on texts of decimal digits. *)
Definition digits_float (s : string) : option bool :=
  (fun count => (0 <? count)%N) <$> decimal_count s.

Lemma digits_float_reads_counts : float_reads_counts digits_float.
Proof. intros s count H. unfold digits_float. by rewrite H. Qed.

(** A machine whose remote storage has every tarball and on which the
    environment of the task is available from the shared cache. *)
Definition cluster : system unit := {|
  sys_run := fun _ o => ((0%Z, EmptyString, EmptyString), o);
  sys_stream :=
    fun _ o => ({| running_rounds := []; last_round := []; returncode := 0 |}, o);
  sys_environ :=
    fun _ => <["ENV_NAMES_LIST" := "KingMaker,True;"]> (<["ANA_NAME" := "tau"]> ∅);
  sys_getcwd := fun _ => "/work";
  sys_path_exists := fun _ _ => true;
  sys_abspath := fun path _ => path_join "/work" [path];
  sys_remote_exists := fun _ _ => true;
  sys_effect := fun _ o => (Ok tt, o);
  sys_setup_build_environment := fun b i _ o => (Ok (∅, b, i), o);
|}.

Definition job (gpus : string) : workflow :=
  {| class_name := "CROWNFriends"; local_user := "user";
     wlcg_path := "root://store/"; production_tag := "tag";
     ENV_NAME := "KingMaker"; htcondor_accounting_group := "cms";
     htcondor_requirements := EmptyString; htcondor_remote_job := "True";
     htcondor_walltime := "3600"; htcondor_request_cpus := "1";
     htcondor_request_gpus := gpus; htcondor_request_memory := "2000";
     htcondor_universe := "docker"; htcondor_docker_image := "image";
     htcondor_request_disk := "2000000"; additional_files := [];
     htcondor_user_proxy := "/tmp/x509up" |}.

Definition descriptor (gpus : string) : result job_config * world unit :=
  htcondor_job_config cluster digits_float (fun _ text => text) (fun p => "/" +:+ p)
    "2026_01_01" (job gpus) {| custom_content := []; render_variables := ∅ |}
    0%Z [0%Z] {| events := []; os := tt |}.

(** A request of 0 GPUs: no GPU line.  A request of 1 GPU: the line. *)
Lemma gpu_request_scenario :
  (exists config w',
     descriptor "0" = (Ok config, w') /\
     forall v, ("request_gpus", v) ∉ custom_content config) /\
  (exists config w',
     descriptor "1" = (Ok config, w') /\
     ("request_gpus", "1") ∈ custom_content config).
Proof.
  unfold descriptor. split.
  - destruct (htcondor_job_config _ _ _ _ _ (job "0") _ _ _ _)
      as [[config|e] w'] eqn:E; [|vm_compute in E; discriminate E].
    exists config, w'. split; [reflexivity|].
    by apply (gpu_request_omitted_iff_zero _ _ _ _ _ (job "0") _ _ _ _ _ _ 0%N
                digits_float_reads_counts eq_refl E).
  - destruct (htcondor_job_config _ _ _ _ _ (job "1") _ _ _ _)
      as [[config|e] w'] eqn:E; [|vm_compute in E; discriminate E].
    exists config, w'. split; [reflexivity|].
    by apply (gpu_request_omitted_iff_zero _ _ _ _ _ (job "1") _ _ _ _ _ _ 1%N
                digits_float_reads_counts eq_refl E).
Defined.

(** *** What the method does on the way *)

Section Traces.

Context {OS : Type} (sys : system OS).

(** Every event the computation adds satisfies [P]. *)
Definition emits {A} (P : event -> Prop) (m : M OS A) : Prop :=
  forall w r w', m w = (r, w') ->
    exists evs, events w' = events w ++ evs /\ Forall P evs.

(** The computation never returns. *)
Definition fails {A} (m : M OS A) : Prop :=
  forall w a w', m w <> (Ok a, w').

Lemma emits_ret {A} P (a : A) : emits P (mret a : M OS A).
Proof. intros w r w' [= <- <-]. exists []. by rewrite app_nil_r. Qed.

Lemma emits_raise {A} P e : emits P (raise e : M OS A).
Proof. intros w r w' [= <- <-]. exists []. by rewrite app_nil_r. Qed.

Lemma emits_lift {A} P (r : result A) : emits P (lift r : M OS A).
Proof. intros w r' w' [= <- <-]. exists []. by rewrite app_nil_r. Qed.

Lemma emits_emit P e : P e -> emits P (emit e : M OS unit).
Proof. intros He w r w' [= <- <-]. exists [e]. split; [done|]. by constructor. Qed.

Lemma emits_perform P e : P (Effect e) -> emits P (perform sys e).
Proof.
  intros He w r w'. unfold perform. destruct (sys_effect sys e (os w)) as [r1 o1].
  intros [= <- <-]. exists [Effect e]. split; [done|]. by constructor.
Qed.

Lemma emits_when P b (m : M OS unit) :
  (b = true -> emits P m) -> emits P (when b m).
Proof. destruct b; [auto|]. intros _. apply emits_ret. Qed.

Lemma emits_bind {A B} P (m : M OS A) (k : A -> M OS B) :
  emits P m -> (forall a, emits P (k a)) -> emits P (m ≫= k).
Proof.
  intros Hm Hk w r w' H. unfold mbind, M_bind, bind in H.
  destruct (m w) as [[a|e] w1] eqn:E; destruct (Hm _ _ _ E) as (evs1 & H1 & HP1).
  - destruct (Hk _ _ _ _ H) as (evs2 & H2 & HP2).
    exists (evs1 ++ evs2). rewrite H2, H1, app_assoc. split; [done|].
    by apply Forall_app.
  - injection H as <- <-. eauto.
Qed.

Lemma emits_bind_fails {A B} P (m : M OS A) (k : A -> M OS B) :
  emits P m -> fails m -> emits P (m ≫= k).
Proof.
  intros Hm Hfails w r w' H. unfold mbind, M_bind, bind in H.
  destruct (m w) as [[a|e] w1] eqn:E; [by apply Hfails in E|].
  injection H as <- <-. eauto.
Qed.

Lemma emits_ask_bind {A B} P (f : OS -> A) (k : A -> M OS B) :
  (forall o, emits P (k (f o))) -> emits P (ask f ≫= k).
Proof. intros Hk w r w' H. by apply (Hk (os w) w r w'). Qed.

Lemma emits_popen_bind {B} P args (k : Z * string * string -> M OS B) :
  (forall o code out err,
     (sys_run sys args o).1 = (code, out, err) ->
     P (Spawned args code out err) /\ emits P (k (code, out, err))) ->
  emits P (interruptable_popen sys args ≫= k).
Proof.
  intros Hk w r w' H. unfold mbind, M_bind, bind, interruptable_popen in H.
  specialize (Hk (os w)).
  destruct (sys_run sys args (os w)) as [[[code out] err] o1].
  destruct (Hk code out err eq_refl) as [HP Hemits].
  apply Hemits in H as (evs & H & HPs). cbn [events] in H.
  exists (Spawned args code out err :: evs).
  rewrite H, <- app_assoc. split; [done|]. by constructor.
Qed.

Lemma fails_raise {A} e : fails (raise e : M OS A).
Proof. by intros w a w'. Qed.

Lemma fails_bind_left {A B} (m : M OS A) (k : A -> M OS B) :
  fails m -> fails (m ≫= k).
Proof.
  intros Hm w b w' H. unfold mbind, M_bind, bind in H.
  destruct (m w) as [[a|e] w1] eqn:E; [by apply Hm in E|done].
Qed.

Lemma fails_bind_right {A B} (m : M OS A) (k : A -> M OS B) :
  (forall a, fails (k a)) -> fails (m ≫= k).
Proof.
  intros Hk w b w' H. unfold mbind, M_bind, bind in H.
  destruct (m w) as [[a|e] w1]; [by apply Hk in H|done].
Qed.

Lemma fails_ask_bind {A B} (f : OS -> A) (k : A -> M OS B) :
  (forall o, fails (k (f o))) -> fails (ask f ≫= k).
Proof. intros Hk w b w' H. by apply (Hk (os w) w b w'). Qed.

Lemma fails_popen_bind {B} args (k : Z * string * string -> M OS B) :
  (forall o code out err,
     (sys_run sys args o).1 = (code, out, err) -> fails (k (code, out, err))) ->
  fails (interruptable_popen sys args ≫= k).
Proof.
  intros Hk w b w' H. unfold mbind, M_bind, bind, interruptable_popen in H.
  specialize (Hk (os w)).
  destruct (sys_run sys args (os w)) as [[[code out] err] o1].
  by apply (Hk code out err eq_refl) in H.
Qed.

End Traces.

Lemma fromkeys_subset seen l x :
  x ∈ fold_left (fun seen x => if str_in x seen then seen else seen ++ [x]) l seen ->
  x ∈ seen \/ x ∈ l.
Proof.
  revert seen. induction l as [|y l IH]; intros seen; simpl; [auto|].
  intros H. apply IH in H as [H|H]; [|right; by apply list_elem_of_further].
  destruct (str_in y seen); [auto|].
  apply elem_of_app in H as [H|H]; [auto|].
  apply list_elem_of_singleton in H as ->. right. apply list_elem_of_here.
Qed.

Lemma dict_of_lookup items d d' key value :
  dict_of items d = Ok d' ->
  d' !! key = Some value ->
  d !! key = Some value \/ [key; value] ∈ items.
Proof.
  revert d. induction items as [|item items IH]; intros d; simpl.
  - intros [= <-]. auto.
  - destruct item as [|k [|v [|? ?]]]; try done.
    intros Hd Hlookup. destruct (IH _ Hd Hlookup) as [H|H].
    + destruct (decide (k = key)) as [->|Hne].
      * rewrite lookup_insert_eq in H. injection H as ->.
        right. apply list_elem_of_here.
      * rewrite lookup_insert_ne in H by done. auto.
    + right. by apply list_elem_of_further.
Qed.

Section OnTheWay.

Context {OS : Type} (sys : system OS).
Variable float_positive : string -> option bool.
Variable expandvars : environ -> string -> string.
Variable wlcg_target_path : string -> string.
Variable startup_time : string.

(** The remote path of the job tarball and of the environment tarball, the
    local path of the job tarball, and the command that packs it. *)
Definition job_tarball (self : workflow) : string :=
  production_tag self +:+ "/" +:+ class_name self +:+ "/job_tarball/processor.tar.gz".

Definition env_tarball (self : workflow) : string :=
  "env_tarballs/" +:+ ENV_NAME self +:+ ".tar.gz".

Definition local_job_tarball (self : workflow) : string :=
  "tarballs/" +:+ production_tag self +:+ "/" +:+ class_name self +:+
  "/processor.tar.gz".

Definition tar_args (self : workflow) (analysis_name : option string) : popen_args :=
  {| pa_cmd :=
       Argv (["tar"; "--exclude"; "*.pyc"; "--exclude"; "law/.git"; "-czf";
              local_job_tarball self;
              "processor";
              "lawluigi_configs/" +:+ format_opt analysis_name +:+ "_luigi.cfg";
              "lawluigi_configs/" +:+ format_opt analysis_name +:+ "_law.cfg";
              "law"] ++ additional_files self);
     pa_env := None; pa_cwd := None |}.


(** What the method does besides packing the job tarball. *)
Definition housekeeping (self : workflow) (e : event) : Prop :=
  e = Effect (Makedirs ("tarballs/" +:+ production_tag self)) \/
  e = Effect (TouchRemoteParent (env_tarball self)) \/
  e = Effect (CopyFromLocal (env_tarball self)
                ("tarballs/conda_envs/" +:+ ENV_NAME self +:+ ".tar.gz")).

(** When the job tarball is on the remote storage, the method reuses it:
    whatever it returns or raises, it has at most made the local tarball
    directory and copied the environment tarball; no child was started and
    no job tarball was packed or copied. *)
Theorem remote_tarball_is_reused self config job_num branches (w : world OS) r w' :
  (forall o, sys_remote_exists sys (job_tarball self) o = true) ->
  htcondor_job_config sys float_positive expandvars wlcg_target_path startup_time
    self config job_num branches w = (r, w') ->
  exists evs, events w' = events w ++ evs /\ Forall (housekeeping self) evs.
Proof.
  intros Hexists.
  enough (H : emits (housekeeping self)
                (htcondor_job_config sys float_positive expandvars wlcg_target_path
                   startup_time self config job_num branches)) by apply H.
  unfold htcondor_job_config, getenv, job_tarball in *. cbv zeta.
  do 2 (apply emits_ask_bind; intros ?).
  apply emits_bind.
  { destruct (float_positive _) as [[|]|];
      [apply emits_ret|apply emits_ret|apply emits_raise]. }
  intros content. apply emits_ask_bind; intros ?.
  apply emits_bind.
  { apply emits_when; intros _. apply emits_perform. by left. }
  intros _. apply emits_ask_bind; intros there. rewrite Hexists.
  apply emits_bind; [apply emits_ret|]. intros _.
  apply emits_ask_bind; intros names.
  apply emits_bind.
  { destruct (sys_environ sys names !! "ENV_NAMES_LIST");
      [apply emits_ret|apply emits_raise]. }
  intros env_list. apply emits_bind; [apply emits_lift|]. intros env_dict.
  apply emits_bind.
  { destruct (env_dict !! ENV_NAME self); [apply emits_ret|apply emits_raise]. }
  intros use_cvmfs. apply emits_bind.
  { apply emits_when; intros _. apply emits_ask_bind; intros ?.
    apply emits_when; intros _.
    apply emits_bind; [|intros _]; apply emits_perform; unfold housekeeping; auto. }
  intros _. apply emits_ask_bind; intros ?. apply emits_ask_bind; intros ?.
  apply emits_ret.
Qed.

(** An event other than a copy to the remote storage. *)
Definition no_copy (e : event) : Prop :=
  forall target source, e <> Effect (CopyFromLocal target source).

Ltac not_a_copy := solve [intros ? ?; discriminate].

Lemma repack_tarball_stops self name :
  (forall o, (sys_run sys (tar_args self name) o).1.1.1 <> 0%Z) ->
  emits no_copy
    (repack_tarball sys self (class_name self) name (job_tarball self)) /\
  fails (repack_tarball sys self (class_name self) name (job_tarball self)).
Proof.
  intros Htar. unfold repack_tarball. cbv zeta.
  fold (local_job_tarball self). fold (tar_args self name).
  unfold console_log, console_rule. split.
  - apply emits_ask_bind; intros prevdir.
    do 2 (apply emits_bind; [apply emits_perform; not_a_copy|intros _]).
    apply emits_popen_bind; intros o code out err Hchild. split; [not_a_copy|].
    specialize (Htar o). rewrite Hchild in Htar. apply Z.eqb_neq in Htar.
    cbn beta iota. cbn [fst snd] in Htar. rewrite Htar. cbn [negb].
    apply emits_bind_fails.
    + repeat (apply emits_bind; [|intros _]);
        first [apply emits_emit; not_a_copy | apply emits_perform; not_a_copy
              | apply emits_raise].
    + repeat (apply fails_bind_right; intros _). apply fails_raise.
  - apply fails_ask_bind; intros prevdir.
    do 2 (apply fails_bind_right; intros _).
    apply fails_popen_bind; intros o code out err Hchild.
    specialize (Htar o). rewrite Hchild in Htar. apply Z.eqb_neq in Htar.
    cbn beta iota. cbn [fst snd] in Htar. rewrite Htar. cbn [negb].
    apply fails_bind_left.
    repeat (apply fails_bind_right; intros _). apply fails_raise.
Qed.

(** When the job tarball is not on the remote storage and [tar] terminates
    with a status other than 0, the method raises, and it has copied nothing
    to the remote storage. *)
Theorem failed_tar_copies_nothing self config job_num branches (w : world OS) r w' :
  (forall o, sys_remote_exists sys (job_tarball self) o = false) ->
  (forall name o, (sys_run sys (tar_args self name) o).1.1.1 <> 0%Z) ->
  htcondor_job_config sys float_positive expandvars wlcg_target_path startup_time
    self config job_num branches w = (r, w') ->
  (exists e, r = Raise e) /\
  exists evs,
    events w' = events w ++ evs /\
    forall target source, Effect (CopyFromLocal target source) ∉ evs.
Proof.
  intros Hexists Htar Hrun.
  enough (H : emits no_copy
                (htcondor_job_config sys float_positive expandvars wlcg_target_path
                   startup_time self config job_num branches) /\
              fails
                (htcondor_job_config sys float_positive expandvars wlcg_target_path
                   startup_time self config job_num branches)).
  { destruct H as [Hemits Hfails]. split.
    - destruct r as [config'|e]; [by apply Hfails in Hrun|eauto].
    - destruct (Hemits _ _ _ Hrun) as (evs & Hevents & Hnone).
      exists evs. split; [done|]. intros target source Hin.
      rewrite Forall_forall in Hnone. by apply (Hnone _ Hin target source). }
  unfold htcondor_job_config, getenv. cbv zeta. fold (job_tarball self). split.
  - apply emits_ask_bind; intros analysis_name.
    apply emits_ask_bind; intros analysis_path.
    apply emits_bind.
    { destruct (float_positive _) as [[|]|];
        [apply emits_ret|apply emits_ret|apply emits_raise]. }
    intros content. apply emits_ask_bind; intros tarball_dir.
    apply emits_bind; [apply emits_when; intros _; apply emits_perform; not_a_copy|].
    intros _. apply emits_ask_bind; intros there. rewrite Hexists. cbn [negb when].
    apply emits_bind_fails; by apply repack_tarball_stops.
  - apply fails_ask_bind; intros analysis_name.
    apply fails_ask_bind; intros analysis_path.
    apply fails_bind_right; intros content.
    apply fails_ask_bind; intros tarball_dir.
    apply fails_bind_right; intros _.
    apply fails_ask_bind; intros there. rewrite Hexists. cbn [negb when].
    apply fails_bind_left. by apply repack_tarball_stops.
Qed.

(** The variables of a descriptor that came back: the user, the analysis
    name of the environment, the environment name, the tag, the two tarball
    paths and the start-up time.  [USE_CVMFS] is the flag an entry
    [name,flag] of [ENV_NAMES_LIST] gives the environment of the task, the
    text after the last semicolon not being an entry; the path of the
    environment tarball is set exactly when that flag is [False], and is
    otherwise what the descriptor passed in had. *)
Theorem render_variables_on_success self config job_num branches (w : world OS)
    config' w' :
  htcondor_job_config sys float_positive expandvars wlcg_target_path startup_time
    self config job_num branches w = (Ok config', w') ->
  exists flag,
    render_variables config' !! "USER" = Some (Some (local_user self)) /\
    render_variables config' !! "ANA_NAME" =
      Some (sys_environ sys (os w') !! "ANA_NAME") /\
    render_variables config' !! "ENV_NAME" = Some (Some (ENV_NAME self)) /\
    render_variables config' !! "TAG" = Some (Some (production_tag self)) /\
    render_variables config' !! "USE_CVMFS" = Some (Some flag) /\
    render_variables config' !! "TARBALL_PATH" =
      Some (Some (expandvars (sys_environ sys (os w')) (wlcg_path self) +:+
                  wlcg_target_path (job_tarball self))) /\
    render_variables config' !! "TARBALL_ENV_PATH" =
      (if String.eqb flag "False"
       then Some (Some (expandvars (sys_environ sys (os w')) (wlcg_path self) +:+
                        wlcg_target_path (env_tarball self)))
       else render_variables config !! "TARBALL_ENV_PATH") /\
    render_variables config' !! "LOCAL_TIMESTAMP" = Some (Some startup_time) /\
    exists o names entry,
      sys_environ sys o !! "ENV_NAMES_LIST" = Some names /\
      entry ∈ removelast (split names ";") /\
      split entry "," = [ENV_NAME self; flag].
Proof.
  unfold htcondor_job_config. intros H.
  apply bind_ok in H as (analysis_name & w1 & _ & H).
  apply bind_ok in H as (analysis_path & w2 & _ & H).
  apply bind_ok in H as (content & w3 & _ & H).
  apply bind_ok in H as (tarball_dir & w4 & _ & H).
  apply bind_ok in H as (? & w5 & _ & H).
  apply bind_ok in H as (tarball_exists & w6 & _ & H).
  apply bind_ok in H as (? & w7 & _ & H).
  apply bind_ok in H as (env_names_list & w8 & Hnames & H).
  apply bind_ok in H as (env_list & w9 & Hlist & H).
  apply bind_ok in H as (env_dict & w10 & Hdict & H).
  apply bind_ok in H as (use_cvmfs & w11 & Hflag & H).
  apply bind_ok in H as (? & w12 & _ & H).
  apply bind_ok in H as (ana_name & w13 & Hana & H).
  apply bind_ok in H as (environ & w14 & Henviron & H).
  injection H as <- <-. injection Henviron as <- <-. injection Hana as <- <-.
  exists use_cvmfs. cbn [render_variables].
  fold (job_tarball self). fold (env_tarball self).
  assert (Hentry : exists o names entry,
            sys_environ sys o !! "ENV_NAMES_LIST" = Some names /\
            entry ∈ removelast (split names ";") /\
            split entry "," = [ENV_NAME self; use_cvmfs]).
  { injection Hnames as <- <-.
    destruct (sys_environ sys (os w7) !! "ENV_NAMES_LIST") as [names|] eqn:Hset;
      [|discriminate Hlist].
    injection Hlist as <- <-. injection Hdict as Hdict _.
    destruct (env_dict !! ENV_NAME self) as [flag|] eqn:Hlookup;
      [|discriminate Hflag].
    injection Hflag as -> _.
    destruct (dict_of_lookup _ _ _ _ _ Hdict Hlookup) as [Hempty|Hin];
      [by rewrite lookup_empty in Hempty|].
    apply list_elem_of_In, in_map_iff in Hin as (entry & Hsplit & Hin).
    apply list_elem_of_In in Hin. unfold fromkeys in Hin.
    apply fromkeys_subset in Hin as [Hin|Hin]; [by apply elem_of_nil in Hin|].
    eauto 10. }
  destruct (String.eqb use_cvmfs "False");
    repeat (split; [by simplify_map_eq|]); exact Hentry.
Qed.

End OnTheWay.

(** *** The descriptor of a friend job *)

Section FriendJobs.

Context {OS : Type} (sys : system OS).
Variable float_positive : string -> option bool.
Variable expandvars : environ -> string -> string.
Variable wlcg_target_path : string -> string.
Variable startup_time : string.
Variable makedirs_exist_ok : string -> M OS unit.

(** The lines a [CROWNFriends] task adds to the descriptor. *)
Definition friend_lines (self : CROWNFriends.task) : list (string * string) :=
  [("JobBatchName",
    CROWNFriends.nick self +:+ "-" +:+ CROWNFriends.analysis self +:+ "-" +:+
    CROWNFriends.friend_name self +:+ "-" +:+ CROWNFriends.production_tag self);
   ("Log", CROWNFriends.nick self +:+ "/");
   ("Output", CROWNFriends.nick self +:+ "/");
   ("Error", CROWNFriends.nick self +:+ "/")].

Lemma update_log_path_fresh self type content (w : world OS) content' w' :
  CROWNFriends.first_value type content = EmptyString ->
  CROWNFriends.update_log_path makedirs_exist_ok self type content w =
    (Ok content', w') ->
  content' = content ++ [(type, CROWNFriends.nick self +:+ "/")].
Proof.
  intros Hfresh. unfold CROWNFriends.update_log_path. rewrite Hfresh.
  cbn [split last removelast app join String.concat].
  intros H. apply bind_ok in H as (? & w1 & _ & H). by injection H as <- _.
Qed.

(** The descriptor of a [CROWNFriends] job: the lines of the workflow, the
    batch name, and the three log lines.  The workflow has written no log
    line before, so each of [Log], [Output] and [Error] is the folder of the
    nick with no file name after the slash, and the friend name is in none
    of them. *)
Theorem log_lines_name_the_nick_folder self workflow config job_num branches
    (w : world OS) config' w' :
  CROWNFriends.htcondor_job_config sys float_positive expandvars wlcg_target_path
    startup_time makedirs_exist_ok self workflow config job_num branches w =
    (Ok config', w') ->
  exists positive,
    float_positive (htcondor_request_gpus workflow) = Some positive /\
    custom_content config' = the_content workflow positive ++ friend_lines self.
Proof.
  unfold CROWNFriends.htcondor_job_config. intros H.
  apply bind_ok in H as (config1 & w1 & Hbase & H).
  apply htcondor_job_config_content in Hbase as (positive & Hpositive & Hcontent).
  exists positive. split; [done|]. rewrite Hcontent in H. clear Hcontent Hpositive.
  apply bind_ok in H as (content & w2 & Hlog & H).
  injection H as <- _. cbn [custom_content].
  cbn [CROWNFriends.update_log_paths] in Hlog.
  apply bind_ok in Hlog as (content1 & w3 & Hlog1 & Hlog).
  apply bind_ok in Hlog as (content2 & w4 & Hlog2 & Hlog).
  apply bind_ok in Hlog as (content3 & w5 & Hlog3 & Hlog).
  injection Hlog as <- _.
  apply update_log_path_fresh in Hlog1;
    [|unfold the_content;
      by destruct (negb (String.eqb (htcondor_requirements workflow) "")), positive].
  subst content1.
  apply update_log_path_fresh in Hlog2;
    [|unfold the_content;
      by destruct (negb (String.eqb (htcondor_requirements workflow) "")), positive].
  subst content2.
  apply update_log_path_fresh in Hlog3;
    [|unfold the_content;
      by destruct (negb (String.eqb (htcondor_requirements workflow) "")), positive].
  subst content3. unfold friend_lines. by rewrite <- !app_assoc.
Qed.

End FriendJobs.

(** *** Scenarios *)


Lemma remote_tarball_is_reused_witness :
  exists evs,
    events (descriptor "0").2 = [] ++ evs /\ Forall (housekeeping (job "0")) evs.
Proof.
  unfold descriptor.
  destruct (htcondor_job_config _ _ _ _ _ (job "0") _ _ _ _) as [r w'] eqn:E.
  apply (remote_tarball_is_reused cluster digits_float _ _ _ (job "0") _ _ _ _ r w'
           (fun _ => eq_refl) E).
Defined.

(** A machine whose remote storage is empty and on which [tar] fails. *)
Definition full_disk : system unit := {|
  sys_run := fun _ o => ((2%Z, EmptyString, "tar: write error"), o);
  sys_stream :=
    fun _ o => ({| running_rounds := []; last_round := []; returncode := 0 |}, o);
  sys_environ :=
    fun _ => <["ENV_NAMES_LIST" := "KingMaker,True;"]> (<["ANA_NAME" := "tau"]> ∅);
  sys_getcwd := fun _ => "/work";
  sys_path_exists := fun _ _ => true;
  sys_abspath := fun path _ => path_join "/work" [path];
  sys_remote_exists := fun _ _ => false;
  sys_effect := fun _ o => (Ok tt, o);
  sys_setup_build_environment := fun b i _ o => (Ok (∅, b, i), o);
|}.

Lemma failed_tar_copies_nothing_witness :
  exists e,
    (htcondor_job_config full_disk digits_float (fun _ text => text)
       (fun p => "/" +:+ p) "2026_01_01" (job "0")
       {| custom_content := []; render_variables := ∅ |} 0%Z [0%Z]
       {| events := []; os := tt |}).1 = Raise e.
Proof.
  destruct (htcondor_job_config _ _ _ _ _ (job "0") _ _ _ _) as [r w'] eqn:E.
  apply (failed_tar_copies_nothing full_disk digits_float _ _ _ (job "0") _ _ _ _ r w'
           (fun _ => eq_refl) (fun _ _ => ltac:(discriminate)) E).
Defined.

Lemma render_variables_on_success_witness :
  exists config w',
    descriptor "0" = (Ok config, w') /\
    render_variables config !! "TAG" = Some (Some "tag").
Proof.
  unfold descriptor.
  destruct (htcondor_job_config _ _ _ _ _ (job "0") _ _ _ _)
    as [[config|e] w'] eqn:E; [|vm_compute in E; discriminate E].
  exists config, w'. split; [reflexivity|].
  by destruct (render_variables_on_success cluster digits_float _ _ _ (job "0")
                 _ _ _ _ _ _ E) as (flag & _ & _ & _ & Htag & _).
Defined.

(** The descriptor of a friend job on the cluster. *)
Definition friend_descriptor : result job_config * world unit :=
  CROWNFriends.htcondor_job_config cluster digits_float (fun _ text => text)
    (fun p => "/" +:+ p) "2026_01_01" (fun path => perform cluster (Makedirs path))
    (BranchMapper.friends "ff") (job "0")
    {| custom_content := []; render_variables := ∅ |} 0%Z [0%Z]
    {| events := []; os := tt |}.

Lemma log_lines_name_the_nick_folder_witness :
  exists config w',
    friend_descriptor = (Ok config, w') /\
    custom_content config =
      the_content (job "0") false ++ friend_lines (BranchMapper.friends "ff").
Proof.
  unfold friend_descriptor.
  destruct (CROWNFriends.htcondor_job_config _ _ _ _ _ _ _ (job "0") _ _ _ _)
    as [[config|e] w'] eqn:E; [|vm_compute in E; discriminate E].
  exists config, w'. split; [reflexivity|].
  destruct (log_lines_name_the_nick_folder cluster digits_float _ _ _ _ _ (job "0")
              _ _ _ _ _ _ E) as (positive & Hpositive & Hcontent).
  injection Hpositive as <-. exact Hcontent.
Defined.

End JobConfiguration.

(** ** Output supervisor *)

Module OutputSupervisor.

Import Framework.

(** The path of the manifest of a supervisor, under the data path. *)
Definition manifest_path (self : puppet_master) (data_path : string) : string :=
  path_join data_path
    [pm_production_tag self; "PuppetMaster";
     join "_" (puppet_class (puppet_task self) :: pm_identifier self) +:+ ".json"].

(** The set of output paths the puppet declares now. *)
Definition current_paths (self : puppet_master) : gset string :=
  list_to_set (flatten_paths (unwrap_collection (puppet_output (puppet_task self)))).

(** The mismatch as it is reported: the stored paths that are not declared
    any more, then the declared paths that are not stored. *)
Definition reported_difference (stored current : gset string) : list string :=
  elements (stored ∖ current) ++ elements (current ∖ stored).

(** The world once the mismatch is reported. *)
Definition reported (w : world disk) (stored current : gset string) : world disk :=
  {| events := events w ++
       [Log "Missmatch in output files found. Removing checkfile.";
        LogList (reported_difference stored current)];
     os := os w |}.

(** The world once the manifest is deleted. *)
Definition without (target : string) (w : world disk) : world disk :=
  {| events := events w;
     os := {| files := delete target (files (os w));
              on_remove := on_remove (os w);
              disk_environ := disk_environ (os w) |} |}.

Lemma local_path_manifest self (w : world disk) :
  local_path self
    [join "_" ([puppet_class (puppet_task self)] ++ pm_identifier self) +:+ ".json"] w =
  match disk_environ (os w) !! "ANALYSIS_DATA_PATH" with
  | Some data_path => (Ok (manifest_path self data_path), w)
  | None =>
    (Raise (TypeError "expected str, bytes or os.PathLike object, not NoneType"), w)
  end.
Proof.
  unfold local_path, mbind, M_bind, bind, ask.
  by destruct (disk_environ (os w) !! "ANALYSIS_DATA_PATH").
Qed.

Lemma target_exists_lookup target (w : world disk) :
  target_exists target w =
  (Ok (match files (os w) !! target with Some _ => true | None => false end), w).
Proof.
  unfold target_exists, ask. destruct (files (os w) !! target) eqn:E.
  - by rewrite bool_decide_eq_true_2.
  - rewrite bool_decide_eq_false_2; [done|]. by intros [? ?].
Qed.

(** [PuppetMaster.output], case by case. *)
Lemma puppet_master_output_cases self (w : world disk) :
  match disk_environ (os w) !! "ANALYSIS_DATA_PATH" with
  | None =>
    puppet_master_output self w =
    (Raise (TypeError "expected str, bytes or os.PathLike object, not NoneType"), w)
  | Some data_path =>
    let target := manifest_path self data_path in
    match files (os w) !! target with
    | None => puppet_master_output self w = (Ok target, w)
    | Some stored =>
      if decide (current_paths self = list_to_set stored) then
        puppet_master_output self w = (Ok target, w)
      else
        let w1 := reported w (list_to_set stored) (current_paths self) in
        match on_remove (os w) target with
        | Removes => puppet_master_output self w = (Ok target, without target w1)
        | Stays =>
          puppet_master_output self w =
          (Raise (Exception ("File " +:+ target +:+ " could not be deleted")), w1)
        | Fails e => puppet_master_output self w = (Raise e, w1)
        end
    end
  end.
Proof.
  cbv beta zeta delta [puppet_master_output mbind M_bind bind].
  rewrite local_path_manifest.
  destruct (disk_environ (os w) !! "ANALYSIS_DATA_PATH") as [data_path|]; [|done].
  cbv zeta. set (target := manifest_path self data_path). clearbody target.
  rewrite target_exists_lookup.
  destruct (files (os w) !! target) as [stored|] eqn:Hfile; [|done].
  unfold target_load, mbind, M_bind, bind, ask, mret, M_ret, ret, raise.
  rewrite Hfile. fold (current_paths self).
  destruct (decide (current_paths self = list_to_set stored)); [done|].
  unfold emit, target_remove. cbn [events os].
  fold (reported_difference (list_to_set stored) (current_paths self)).
  destruct (on_remove (os w) target).
  - rewrite target_exists_lookup. cbn [os files]. rewrite lookup_delete_eq.
    unfold without, reported. cbn [events os]. by rewrite <- app_assoc.
  - rewrite target_exists_lookup. cbn [os]. rewrite Hfile.
    unfold reported. by rewrite <- app_assoc.
  - unfold reported. by rewrite <- app_assoc.
Qed.

Lemma reported_difference_symmetric (stored current : gset string) p :
  p ∈ reported_difference stored current <->
  (p ∈ stored /\ p ∉ current) \/ (p ∈ current /\ p ∉ stored).
Proof.
  unfold reported_difference. rewrite elem_of_app, !elem_of_elements.
  set_solver.
Qed.

(** C7.  With a manifest on disk: when the stored path set equals the set
    the puppet declares now, [output] returns the manifest target and
    leaves the world as it is.  When the sets differ, the mismatch and the
    list of the paths in exactly one of the two sets are logged and the
    manifest is removed: if it is gone the target is returned; if it is
    still there [output] raises and returns no target. *)
Theorem output_checks_manifest self (w : world disk) data_path stored :
  disk_environ (os w) !! "ANALYSIS_DATA_PATH" = Some data_path ->
  files (os w) !! manifest_path self data_path = Some stored ->
  let target := manifest_path self data_path in
  let from_file : gset string := list_to_set stored in
  let current := current_paths self in
  (current = from_file ->
   puppet_master_output self w = (Ok target, w)) /\
  (current <> from_file ->
   let w1 := reported w from_file current in
   (forall p, p ∈ reported_difference from_file current <->
      (p ∈ from_file /\ p ∉ current) \/ (p ∈ current /\ p ∉ from_file)) /\
   match on_remove (os w) target with
   | Removes =>
     puppet_master_output self w = (Ok target, without target w1) /\
     files (os (without target w1)) !! target = None
   | Stays =>
     puppet_master_output self w =
     (Raise (Exception ("File " +:+ target +:+ " could not be deleted")), w1) /\
     files (os w1) !! target = Some stored
   | Fails e =>
     puppet_master_output self w = (Raise e, w1) /\
     files (os w1) !! target = Some stored
   end).
Proof.
  intros Henv Hfile target from_file current.
  pose proof (puppet_master_output_cases self w) as H.
  rewrite Henv in H. simpl in H. rewrite Hfile in H.
  fold target from_file current in H.
  destruct (decide (current = from_file)) as [Heq|Hne].
  - split; [done|]. by intros Hne.
  - split; [by intros Heq|]. intros _ w1.
    split; [apply reported_difference_symmetric|].
    fold w1 in H. destruct (on_remove (os w) target).
    + split; [done|]. simpl. apply lookup_delete_eq.
    + by split.
    + by split.
Qed.

(** C8.  After the run step has written the manifest from the flattened
    outputs of the puppet, [output] with the same declared outputs finds the
    stored set equal to the current one: it returns the manifest target and
    changes nothing, logs nothing and deletes nothing; the manifest holds
    the flattened output paths. *)
Theorem manifest_round_trip self (w w' : world disk) :
  puppet_master_resume self w = (Ok tt, w') ->
  exists target,
    puppet_master_output self w' = (Ok target, w') /\
    files (os w') !! target =
      Some (flatten_paths (unwrap_collection (puppet_output (puppet_task self)))).
Proof.
  unfold puppet_master_resume. intros Hrun.
  unfold mbind, M_bind, bind in Hrun.
  destruct (puppet_master_output self w) as [[target|e] w1] eqn:Hout;
    [|discriminate].
  unfold target_dump in Hrun. injection Hrun as <-.
  assert (Henv : disk_environ (os w1) = disk_environ (os w) /\
          exists data_path,
            disk_environ (os w) !! "ANALYSIS_DATA_PATH" = Some data_path /\
            target = manifest_path self data_path).
  { pose proof (puppet_master_output_cases self w) as H. rewrite Hout in H.
    destruct (disk_environ (os w) !! "ANALYSIS_DATA_PATH") as [data_path|];
      [|discriminate]. simpl in H.
    destruct (files (os w) !! manifest_path self data_path) as [stored|].
    - destruct (decide _).
      + injection H as -> ->. eauto.
      + destruct (on_remove (os w) (manifest_path self data_path));
          [|discriminate..]. injection H as -> ->. simpl. eauto.
    - injection H as -> ->. eauto. }
  destruct Henv as (Henv & data_path & Hdata & ->).
  exists (manifest_path self data_path).
  match goal with |- puppet_master_output self ?w2 = _ /\ _ =>
    pose proof (puppet_master_output_cases self w2) as H end.
  cbn [os disk_environ files] in H. rewrite Henv, Hdata in H.
  cbv zeta in H. rewrite lookup_insert_eq in H.
  fold (current_paths self) in H.
  destruct (decide _) as [_|Hne]; [|by destruct Hne].
  split; [rewrite Henv; exact H|]. cbn [os files]. apply lookup_insert_eq.
Qed.

(** *** A supervisor whose puppet has changed its outputs *)

(** The puppet declares three targets, nested in a collection. *)
Definition supervisor : puppet_master :=
  {| pm_production_tag := "tag";
     pm_identifier := ["nick"; "friend"];
     puppet_task :=
       {| puppet_class := "CROWNFriends";
          puppet_output :=
            ODict true
              [("collection",
                OCollection
                  [OSeq [OTarget "friend/scope_a/nick_0.root";
                         OTarget "friend/scope_a/quantities_map.json"];
                   OSeq [OTarget "friend/scope_a/nick_1.root"]])] |} |}.

Definition manifest : string :=
  "/data/tag/PuppetMaster/CROWNFriends_nick_friend.json".

(** The manifest on disk is from an earlier run, with another second
    file. *)
Definition stale : list string :=
  ["friend/scope_a/nick_0.root"; "friend/scope_a/quantities_map.json";
   "friend/scope_a/nick_7.root"].

Definition stale_world (on_remove : string -> removal) : world disk :=
  {| events := [];
     os := {| files := {[ manifest := stale ]};
              on_remove := on_remove;
              disk_environ := {[ "ANALYSIS_DATA_PATH" := "/data" ]} |} |}.

Lemma stale_differs : current_paths supervisor <> list_to_set stale.
Proof.
  intros Heq.
  apply (f_equal (fun paths : gset string =>
                    bool_decide ("friend/scope_a/nick_7.root" ∈ paths))) in Heq.
  vm_compute in Heq. discriminate Heq.
Qed.

(** The stale manifest is reported and removed; when it cannot be removed
    the call raises. *)
Lemma output_checks_manifest_witness :
  (puppet_master_output supervisor (stale_world (fun _ => Removes)) =
   (Ok manifest,
    without manifest
      (reported (stale_world (fun _ => Removes)) (list_to_set stale)
                (current_paths supervisor)))) /\
  (puppet_master_output supervisor (stale_world (fun _ => Stays)) =
   (Raise (Exception ("File " +:+ manifest +:+ " could not be deleted")),
    reported (stale_world (fun _ => Stays)) (list_to_set stale)
             (current_paths supervisor))).
Proof.
  split.
  - destruct (output_checks_manifest supervisor (stale_world (fun _ => Removes))
                "/data" stale eq_refl eq_refl) as [_ H].
    destruct (H stale_differs) as [_ [Hout _]]. exact Hout.
  - destruct (output_checks_manifest supervisor (stale_world (fun _ => Stays))
                "/data" stale eq_refl eq_refl) as [_ H].
    destruct (H stale_differs) as [_ [Hout _]]. exact Hout.
Defined.

(** The run step writes the manifest anew, and the check that follows
    finds nothing to report. *)
Lemma manifest_round_trip_witness :
  exists w' target,
    puppet_master_resume supervisor (stale_world (fun _ => Removes)) = (Ok tt, w') /\
    puppet_master_output supervisor w' = (Ok target, w').
Proof.
  destruct (puppet_master_resume supervisor (stale_world (fun _ => Removes)))
    as [[[]|e] w'] eqn:E; [|vm_compute in E; discriminate E].
  exists w'.
  destruct (manifest_round_trip supervisor _ _ E) as (target & Hout & _).
  exists target. by split.
Defined.

(** *** What the supervisor leaves alone, and how it converges *)



(** The check compares sets: a manifest that lists the declared paths in
    another order, or some of them more than once, is no mismatch. *)
Theorem output_ignores_order self (w : world disk) data_path stored :
  disk_environ (os w) !! "ANALYSIS_DATA_PATH" = Some data_path ->
  files (os w) !! manifest_path self data_path = Some stored ->
  (forall p, p ∈ stored <->
     p ∈ flatten_paths (unwrap_collection (puppet_output (puppet_task self)))) ->
  puppet_master_output self w = (Ok (manifest_path self data_path), w).
Proof.
  intros Henv Hfile Hsame.
  pose proof (puppet_master_output_cases self w) as H.
  rewrite Henv in H. cbv zeta in H. rewrite Hfile in H.
  destruct (decide _) as [_|Hne]; [done|].
  destruct Hne. unfold current_paths. apply set_eq. intros p.
  rewrite !elem_of_list_to_set. by rewrite Hsame.
Qed.

Lemma output_ignores_order_witness :
  let w :=
    {| events := [];
       os := {| files :=
                  {[ manifest :=
                       ["friend/scope_a/nick_1.root"; "friend/scope_a/nick_0.root";
                        "friend/scope_a/quantities_map.json";
                        "friend/scope_a/nick_1.root"] ]};
                on_remove := fun _ => Removes;
                disk_environ := {[ "ANALYSIS_DATA_PATH" := "/data" ]} |} |} in
  puppet_master_output supervisor w = (Ok manifest, w).
Proof.
  apply (output_ignores_order supervisor _ "/data"
           ["friend/scope_a/nick_1.root"; "friend/scope_a/nick_0.root";
            "friend/scope_a/quantities_map.json"; "friend/scope_a/nick_1.root"]);
    [reflexivity | reflexivity |].
  intros p. simpl. rewrite !elem_of_cons, !elem_of_nil. tauto.
Defined.



(** Convergence.  With a manifest that differs from the outputs the puppet
    declares now and that can be removed: the check removes it; the run step
    that follows writes the declared paths; the next check finds nothing to
    do. *)
Theorem supervisor_converges self (w : world disk) data_path stored :
  disk_environ (os w) !! "ANALYSIS_DATA_PATH" = Some data_path ->
  files (os w) !! manifest_path self data_path = Some stored ->
  current_paths self <> list_to_set stored ->
  on_remove (os w) (manifest_path self data_path) = Removes ->
  let target := manifest_path self data_path in
  exists w1 w2,
    puppet_master_output self w = (Ok target, w1) /\
    files (os w1) !! target = None /\
    puppet_master_resume self w1 = (Ok tt, w2) /\
    files (os w2) !! target =
      Some (flatten_paths (unwrap_collection (puppet_output (puppet_task self)))) /\
    puppet_master_output self w2 = (Ok target, w2).
Proof.
  intros Henv Hfile Hdiffer Hremoves target. subst target.
  set (target := manifest_path self data_path) in *.
  pose proof (puppet_master_output_cases self w) as H1.
  rewrite Henv in H1. cbv zeta in H1. fold target in H1. rewrite Hfile in H1.
  destruct (decide _) as [Heq|_]; [by destruct Hdiffer|].
  rewrite Hremoves in H1.
  set (w1 := without target (reported w (list_to_set stored) (current_paths self)))
    in *.
  assert (Hgone : files (os w1) !! target = None) by apply lookup_delete_eq.
  pose proof (puppet_master_output_cases self w1) as H2.
  change (disk_environ (os w1)) with (disk_environ (os w)) in H2.
  rewrite Henv in H2. cbv zeta in H2. fold target in H2. rewrite Hgone in H2.
  set (w2 := {| events := events w1;
                os := {| files :=
                           <[target := flatten_paths
                                (unwrap_collection (puppet_output (puppet_task self)))]>
                             (files (os w1));
                         on_remove := on_remove (os w1);
                         disk_environ := disk_environ (os w1) |} |}).
  exists w1, w2. split; [done|]. split; [done|].
  split; [|split].
  - unfold puppet_master_resume, mbind, M_bind, bind. by rewrite H2.
  - apply lookup_insert_eq.
  - pose proof (puppet_master_output_cases self w2) as H3.
    change (disk_environ (os w2)) with (disk_environ (os w)) in H3.
    rewrite Henv in H3. cbv zeta in H3. fold target in H3.
    change (files (os w2)) with
      (<[target := flatten_paths
           (unwrap_collection (puppet_output (puppet_task self)))]> (files (os w1)))
      in H3.
    rewrite lookup_insert_eq in H3. fold (current_paths self) in H3.
    by destruct (decide _) as [_|Hne]; [|destruct Hne].
Qed.

Lemma supervisor_converges_witness :
  exists w1 w2,
    puppet_master_output supervisor (stale_world (fun _ => Removes)) = (Ok manifest, w1) /\
    files (os w1) !! manifest = None /\
    puppet_master_resume supervisor w1 = (Ok tt, w2) /\
    files (os w2) !! manifest =
      Some (flatten_paths
              (unwrap_collection (puppet_output (puppet_task supervisor)))) /\
    puppet_master_output supervisor w2 = (Ok manifest, w2).
Proof.
  apply (supervisor_converges supervisor (stale_world (fun _ => Removes)) "/data"
           stale eq_refl eq_refl stale_differs eq_refl).
Defined.

(** Without [ANALYSIS_DATA_PATH] in the environment neither [output] nor the
    resumed [run] gets as far as the disk: both raise the [TypeError] of
    [os.path.join], and no manifest is read, removed or written. *)
Theorem missing_data_path_raises self (w : world disk) :
  disk_environ (os w) !! "ANALYSIS_DATA_PATH" = None ->
  puppet_master_output self w =
    (Raise (TypeError "expected str, bytes or os.PathLike object, not NoneType"), w) /\
  puppet_master_resume self w =
    (Raise (TypeError "expected str, bytes or os.PathLike object, not NoneType"), w).
Proof.
  intros Hunset.
  assert (Houtput : puppet_master_output self w =
            (Raise (TypeError "expected str, bytes or os.PathLike object, not NoneType"),
             w)).
  { unfold puppet_master_output, local_path. cbv zeta.
    unfold mbind, M_bind, bind, ask, raise. cbv beta iota. by rewrite Hunset. }
  split; [done|]. unfold puppet_master_resume. cbv zeta.
  unfold mbind at 1, M_bind at 1, bind at 1. by rewrite Houtput.
Qed.

Lemma missing_data_path_raises_witness :
  puppet_master_output supervisor
    {| events := [];
       os := {| files := ∅; on_remove := fun _ => Removes; disk_environ := ∅ |} |} =
  (Raise (TypeError "expected str, bytes or os.PathLike object, not NoneType"),
   {| events := [];
      os := {| files := ∅; on_remove := fun _ => Removes; disk_environ := ∅ |} |}).
Proof.
  apply (missing_data_path_raises supervisor
           {| events := [];
              os := {| files := ∅; on_remove := fun _ => Removes;
                       disk_environ := ∅ |} |}).
  reflexivity.
Defined.

End OutputSupervisor.

(** ** Artifact cache: the build step *)

Module ArtifactCache.

Import Framework CROWNBuild.

Section Build.

Context {OS : Type} (sys : system OS).

(** Where the build installs the tarball. *)
Definition install_location (self : task) : string :=
  path_join (install_dir self)
    [production_tag self +:+ "/CROWN_" +:+ analysis self +:+ "_" +:+ config self].

(** The pre-staged tarball the build step looks for. *)
Definition local_tarball (self : task) : string :=
  path_join (install_location self) [basename (output self)].

(** The upload of the pre-staged tarball, seen from the state [o]. *)
Definition direct_upload (self : task) (o : OS) : effect :=
  UploadTarball (output self)
    (path_join (sys_abspath sys (install_location self) o) [basename (output self)]) 10.

(** The child that runs the compile script, seen from the state [o], with
    the directories the build environment was set up with. *)
Definition compile_args (self : task) (o : OS) (install_dir build_dir : string)
  : popen_args :=
  {| pa_cmd :=
       Shell (join " "
                (compile_command self
                   (path_join (sys_abspath sys "processor" o)
                      ["tasks"; "scripts"; "compile_crown.sh"])
                   (sys_abspath sys "CROWN" o) install_dir build_dir));
     pa_env := None; pa_cwd := None |}.

(** With the tarball in place, the run is one log line and the upload. *)
Lemma run_with_local_tarball self (w : world OS) :
  sys_path_exists sys (local_tarball self) (os w) = true ->
  run sys self w =
  ((sys_effect sys (direct_upload self (os w)) (os w)).1,
   {| events := events w ++
        [Log ("tarball already existing in tarball directory " +:+
              install_location self);
         Effect (direct_upload self (os w))];
      os := (sys_effect sys (direct_upload self (os w)) (os w)).2 |}).
Proof.
  intros Hthere. unfold run.
  unfold mbind, M_bind, bind, ask, console_log, emit, upload_tarball, perform.
  cbn [os events]. fold (install_location self). fold (local_tarball self).
  rewrite Hthere. cbn [os events]. fold (direct_upload self (os w)).
  destruct (sys_effect sys (direct_upload self (os w)) (os w)) as [r os'].
  by rewrite <- app_assoc.
Qed.

(** Without the tarball in place, the build environment is set up; when
    that raises, the run stops there with no child started; otherwise the
    compile script is streamed with the directories set up. *)
Lemma run_without_local_tarball self (w : world OS) r w' :
  sys_path_exists sys (local_tarball self) (os w) = false ->
  run sys self w = (r, w') ->
  exists evs,
    events w' = events w ++ evs /\
    match sys_setup_build_environment sys
            (path_join (build_dir self)
               [production_tag self +:+ "/CROWN_" +:+ analysis self +:+ "_" +:+
                config self])
            (install_location self) (crownlib self) (os w) with
    | (Ok (my_env, build, install), _) =>
      exists p, Streamed (compile_args self (os w) install build) p ∈ evs
    | (Raise e, _) => r = Raise e /\ Forall (fun e => is_child e = false) evs
    end.
Proof.
  intros Hthere. unfold run.
  unfold mbind at 1 2 3, M_bind at 1 2 3, bind at 1 2 3, ask.
  cbn [os events]. fold (install_location self). fold (local_tarball self).
  rewrite Hthere.
  unfold mbind at 1 2, M_bind at 1 2, bind at 1 2, console_rule at 1, emit at 1.
  unfold setup_build_environment. cbn [os events].
  destruct (sys_setup_build_environment sys _ (install_location self)
              (crownlib self) (os w)) as [[[[my_env build] install]|e] os1].
  - unfold mbind at 1, M_bind at 1, bind at 1, interruptable_popen at 1.
    cbn [os events].
    destruct (sys_run sys _ os1) as [[[code cmake] error] os2].
    unfold mbind, M_bind, bind, console_rule, console_log, emit.
    cbn [os events].
    match goal with
    | |- context [run_command_readable sys ?c ?s None ?w1] =>
        destruct (Runner.run_command_readable_no_source sys c s w1 eq_refl eq_refl)
          as (logs & -> & Hlogs)
    end.
    cbn [os events]. unfold upload_tarball, perform. cbn [os events].
    destruct (sys_effect sys _ _) as [r2 os3].
    intros [= <- <-]. cbn [events]. rewrite <- !app_assoc.
    eexists. split; [reflexivity|].
    eexists. cbn [app].
    repeat first [apply list_elem_of_here | apply list_elem_of_further].
  - intros [= <- <-]. cbn [events]. rewrite <- !app_assoc.
    eexists. split; [reflexivity|]. split; [done|]. repeat constructor.
Qed.

(** C9.  When the tarball is already at the install location, the run is
    a log line and the upload of that tarball to the remote target: no child
    is started, so the compile script is not run.  A child, and so the
    compile script, is started only when the tarball is absent; then, once
    the build environment is set up, the compile script is run. *)
Theorem local_tarball_bypasses_build self (w : world OS) r w' :
  run sys self w = (r, w') ->
  exists evs,
    events w' = events w ++ evs /\
    (sys_path_exists sys (local_tarball self) (os w) = true ->
     evs = [Log ("tarball already existing in tarball directory " +:+
                 install_location self);
            Effect (direct_upload self (os w))] /\
     r = (sys_effect sys (direct_upload self (os w)) (os w)).1) /\
    ((exists e, e ∈ evs /\ is_child e = true) ->
     sys_path_exists sys (local_tarball self) (os w) = false) /\
    (sys_path_exists sys (local_tarball self) (os w) = false ->
     forall my_env build install os1,
       sys_setup_build_environment sys
         (path_join (build_dir self)
            [production_tag self +:+ "/CROWN_" +:+ analysis self +:+ "_" +:+
             config self])
         (install_location self) (crownlib self) (os w)
       = (Ok (my_env, build, install), os1) ->
       exists p, Streamed (compile_args self (os w) install build) p ∈ evs).
Proof.
  intros Hrun.
  destruct (sys_path_exists sys (local_tarball self) (os w)) eqn:Hthere.
  - rewrite run_with_local_tarball in Hrun by done.
    injection Hrun as <- <-. cbn [events].
    eexists. split; [reflexivity|]. split; [done|]. split; [|done].
    intros (e & Hin & Hchild).
    repeat (apply elem_of_cons in Hin as [->|Hin]; [discriminate Hchild|]).
    by apply elem_of_nil in Hin.
  - destruct (run_without_local_tarball self w r w' Hthere Hrun)
      as (evs & Hevs & Hbuild).
    exists evs. split; [done|]. split; [done|]. split; [done|].
    intros _ my_env build install os1 Hsetup. by rewrite Hsetup in Hbuild.
Qed.

End Build.

(** *** The scenario: a pre-staged tarball *)

Definition build : task :=
  {| class_name := "CROWNBuild"; production_tag := "tag"; analysis := "tau";
     config := "config"; all_sampletypes := StrList ["data"; "ttbar"];
     all_eras := StrList ["2018"]; shifts := Str "None";
     scopes := StrList ["mt"; "et"]; threads := 8;
     install_dir := "tarballs"; build_dir := "build"; crownlib := "crownlib.tar.gz" |}.

(** A machine on which the tarball is, or is not, at the install location. *)
Definition workstation (staged : bool) : system unit := {|
  sys_run := fun _ o => ((0%Z, "/usr/bin/cmake", EmptyString), o);
  sys_stream := fun _ o => (Runner.failing_child 0, o);
  sys_environ := fun _ => ∅;
  sys_getcwd := fun _ => "/work";
  sys_path_exists := fun _ _ => staged;
  sys_abspath := fun path _ => path_join "/work" [path];
  sys_remote_exists := fun _ _ => false;
  sys_effect := fun _ o => (Ok tt, o);
  sys_setup_build_environment := fun b i _ o => (Ok (∅, b, i), o);
|}.

(** With the tarball staged, the run uploads it and starts no child. *)
Example staged_tarball_is_uploaded :
  run (workstation true) build Runner.idle =
  (Ok tt,
   {| events :=
        [Log "tarball already existing in tarball directory tarballs/tag/CROWN_tau_config";
         Effect (UploadTarball "tag/CROWNBuild/crown_tau_config.tar.gz"
                   "/work/tarballs/tag/CROWN_tau_config/crown_tau_config.tar.gz" 10)];
      os := tt |}).
Proof. vm_compute. reflexivity. Qed.

(** Without it, the compile script is run and the tarball it leaves is
    uploaded. *)
Example missing_tarball_is_built :
  exists before after,
    run (workstation false) build Runner.idle =
    (Ok tt,
     {| events :=
          before ++
          [Streamed
             {| pa_cmd :=
                  Shell ("bash /work/processor/tasks/scripts/compile_crown.sh " +:+
                         "/work/CROWN tau config data,ttbar 2018 mt,et None " +:+
                         "tarballs/tag/CROWN_tau_config build/tag/CROWN_tau_config " +:+
                         "crown_tau_config.tar.gz 8");
                pa_env := None; pa_cwd := None |}
             (Runner.failing_child 0)] ++
          after ++
          [Rule "Finished CROWNBuild";
           Effect (UploadTarball "tag/CROWNBuild/crown_tau_config.tar.gz"
                     "tarballs/tag/CROWN_tau_config/crown_tau_config.tar.gz" 10)];
        os := tt |}).
Proof.
  eexists (_ :: _ :: _ :: _ :: _ :: _ :: _ :: _ :: _ :: _ :: _ :: _ :: _ ::
           _ :: _ :: _ :: _ :: _ :: []), [_; _; _].
  vm_compute. reflexivity.
Qed.

Lemma local_tarball_bypasses_build_witness :
  exists evs,
    events (run (workstation true) build Runner.idle).2 = [] ++ evs /\
    Forall (fun e => is_child e = false) evs.
Proof.
  destruct (local_tarball_bypasses_build (workstation true) build Runner.idle
              _ _ eq_refl) as (evs & Hevs & Hstaged & _).
  exists evs. split; [exact Hevs|].
  destruct (Hstaged eq_refl) as [-> _]. repeat constructor.
Defined.

(** *** More on the build step *)

Definition COMMA : ascii := chr 44.

Lemma split_without_separator s c : contains c s = false -> split s c = [s].
Proof.
  induction s as [|d s IH]; simpl; [done|].
  destruct (ascii_eqb c d); [done|]. simpl. intros H. by rewrite IH.
Qed.

Lemma split_at_separator s t c :
  contains c s = false -> split (s +:+ String c t) c = s :: split t c.
Proof.
  induction s as [|d s IH].
  - intros _. simpl. unfold ascii_eqb. by rewrite Ascii.eqb_refl.
  - simpl. destruct (ascii_eqb c d); [done|]. simpl. intros H.
    change (String d s +:+ String c t) with (String d (s +:+ String c t)).
    simpl. destruct (ascii_eqb c d) eqn:E; [|by rewrite IH].
    by rewrite IH.
Qed.

Lemma split_join_comma items :
  items <> [] ->
  Forall (fun item => contains COMMA item = false) items ->
  split (join "," items) COMMA = items.
Proof.
  intros Hne Hitems. induction Hitems as [|item items Hitem Hitems IH]; [done|].
  destruct items as [|item' items].
  - simpl. by apply split_without_separator.
  - change (join "," (item :: item' :: items))
      with (item +:+ String COMMA (join "," (item' :: items))).
    rewrite split_at_separator by done. f_equal. by apply IH.
Qed.

(** A list of values is handed to the compile script joined by commas, a
    single value as it is; splitting the text at its commas gives the values
    back when there is at least one and none has a comma in it. *)
Theorem convert_to_comma_seperated_round_trip items :
  items <> [] ->
  Forall (fun item => contains COMMA item = false) items ->
  split (convert_to_comma_seperated (StrList items)) COMMA = items.
Proof.
  assert (H : convert_to_comma_seperated (StrList items) = join "," items)
    by (by destruct items as [|item [|item' items]]).
  rewrite H. apply split_join_comma.
Qed.

Lemma string_prefix_app a b c :
  String.prefix a b = true -> String.prefix a (b +:+ c) = true.
Proof.
  revert a. induction b as [|y b IH]; intros [|x a]; try done.
  - by destruct (c : string).
  - change (String y b +:+ c) with (String y (b +:+ c)). simpl.
    destruct (ascii_dec x y); [|done]. apply IH.
Qed.

Lemma string_prefix_refl a : String.prefix a a = true.
Proof.
  induction a as [|x a IH]; simpl; [done|]. by destruct (ascii_dec x x).
Qed.

Lemma path_join2_below tag path b :
  String.prefix tag path = true ->
  startswith b "/" = false ->
  String.prefix tag (path_join2 path b) = true.
Proof.
  intros Hpath Hb. unfold path_join2. rewrite Hb.
  destruct (String.eqb path "" || endswith path "/"); by apply string_prefix_app.
Qed.

Lemma path_join_below tag path segments :
  String.prefix tag path = true ->
  Forall (fun segment => startswith segment "/" = false) segments ->
  String.prefix tag (path_join path segments) = true.
Proof.
  intros Hpath Hsegments. revert path Hpath.
  induction Hsegments as [|b segments Hb _ IH]; intros path Hpath; [done|].
  simpl. apply IH. by apply path_join2_below.
Qed.

Lemma path_join_absolute path before absolute after :
  startswith absolute "/" = true ->
  path_join path (before ++ absolute :: after) = path_join absolute after.
Proof.
  intros Habs. unfold path_join. rewrite fold_left_app. simpl.
  unfold path_join2 at 2. by rewrite Habs.
Qed.

(** The path of a remote target is below the production tag as long as
    neither the class name nor a segment starts with a slash. *)
Theorem remote_path_below_tag self segments :
  startswith (class_name self) "/" = false ->
  Forall (fun segment => startswith segment "/" = false) segments ->
  String.prefix (production_tag self) (remote_path self segments) = true.
Proof.
  intros Hclass Hsegments. unfold remote_path.
  apply path_join_below; [apply string_prefix_refl|]. by constructor.
Qed.

(** A segment that starts with a slash takes the path of a remote target out
    of the production tag: [os.path.join] drops the tag, the class name and
    every segment before it. *)
Theorem remote_path_absolute_segment self before absolute after :
  startswith absolute "/" = true ->
  remote_path self (before ++ absolute :: after) = path_join absolute after.
Proof.
  intros Habs. unfold remote_path.
  by apply (path_join_absolute _ (class_name self :: before)).
Qed.

Section BuildSteps.

Context {OS : Type} (sys : system OS).

(** The build directory handed to the set-up of the build environment. *)
Definition build_location (self : task) : string :=
  path_join (build_dir self)
    [production_tag self +:+ "/CROWN_" +:+ analysis self +:+ "_" +:+ config self].

(** When the set-up of the build environment raises, the run stops there:
    no child is started and nothing is uploaded. *)
Theorem failed_setup_uploads_nothing self (w : world OS) e os1 :
  sys_path_exists sys (local_tarball self) (os w) = false ->
  sys_setup_build_environment sys (build_location self) (install_location self)
    (crownlib self) (os w) = (Raise e, os1) ->
  run sys self w =
  (Raise e,
   {| events := events w ++
        [Rule "Building new CROWN tarball";
         SetupBuildEnvironment (build_location self) (install_location self)
           (crownlib self)];
      os := os1 |}).
Proof.
  intros Hthere Hsetup. unfold run.
  unfold mbind at 1 2 3, M_bind at 1 2 3, bind at 1 2 3, ask.
  cbn [os events]. fold (install_location self). fold (local_tarball self).
  fold (build_location self). rewrite Hthere.
  unfold mbind at 1 2, M_bind at 1 2, bind at 1 2, console_rule at 1, emit at 1.
  unfold setup_build_environment. cbn [os events]. rewrite Hsetup.
  by rewrite <- app_assoc.
Qed.

(** Once the build environment is set up, the compile script is run in the
    directories the set-up returned, and the tarball expected in the install
    directory is uploaded next, whatever exit status the compile script
    terminated with; the outcome of the run is the outcome of the upload. *)
Theorem upload_follows_compile self (w : world OS) r w' my_env build install os1 :
  sys_path_exists sys (local_tarball self) (os w) = false ->
  sys_setup_build_environment sys (build_location self) (install_location self)
    (crownlib self) (os w) = (Ok (my_env, build, install), os1) ->
  run sys self w = (r, w') ->
  exists before p shown os2,
    events w' = events w ++ before ++
      [Streamed (compile_args sys self (os w) install build) p] ++ shown ++
      [Rule "Finished CROWNBuild";
       Effect (UploadTarball (output self)
                 (path_join install [basename (output self)]) 10)] /\
    Forall (fun e => is_child e = false) shown /\
    (r, os w') =
      sys_effect sys
        (UploadTarball (output self) (path_join install [basename (output self)]) 10)
        os2.
Proof.
  intros Hthere Hsetup. unfold run.
  unfold mbind at 1 2 3, M_bind at 1 2 3, bind at 1 2 3, ask.
  cbn [os events]. fold (install_location self). fold (local_tarball self).
  fold (build_location self). rewrite Hthere.
  unfold mbind at 1 2, M_bind at 1 2, bind at 1 2, console_rule at 1, emit at 1.
  unfold setup_build_environment. cbn [os events]. rewrite Hsetup.
  unfold mbind at 1, M_bind at 1, bind at 1, interruptable_popen at 1.
  cbn [os events].
  destruct (sys_run sys _ os1) as [[[code cmake] error] os2].
  unfold mbind, M_bind, bind, console_rule, console_log, emit.
  cbn [os events].
  match goal with
  | |- context [run_command_readable sys ?c ?s None ?w1] =>
      destruct (Runner.run_command_readable_no_source sys c s w1 eq_refl eq_refl)
        as (logs & -> & Hlogs)
  end.
  cbn [os events]. unfold upload_tarball, perform. cbn [os events].
  match goal with
  | |- context [sys_effect sys ?eff ?o] =>
      destruct (sys_effect sys eff o) as [r2 os3] eqn:Hupload
  end.
  intros [= <- <-]. cbn [events os]. rewrite <- !app_assoc. cbn [app].
  eexists (_ :: _ :: _ :: _ :: _ :: _ :: _ :: _ :: _ :: _ :: _ :: _ :: _ ::
           _ :: _ :: _ :: _ :: _ :: []), _, logs, _.
  split; [reflexivity|]. split; [done|]. by rewrite Hupload.
Qed.

End BuildSteps.

Lemma convert_to_comma_seperated_round_trip_witness :
  split (convert_to_comma_seperated (StrList ["mt"; "et"; "tt"])) COMMA =
  ["mt"; "et"; "tt"].
Proof.
  apply (convert_to_comma_seperated_round_trip ["mt"; "et"; "tt"]);
    [discriminate | repeat constructor].
Defined.

Lemma remote_path_below_tag_witness :
  String.prefix "tag" (remote_path build ["crown_tau_config.tar.gz"]) = true.
Proof.
  apply (remote_path_below_tag build ["crown_tau_config.tar.gz"]);
    [reflexivity | repeat constructor].
Defined.

Lemma remote_path_absolute_segment_witness :
  remote_path build (["cache"] ++ "/scratch" :: ["crown.tar.gz"]) =
  "/scratch/crown.tar.gz".
Proof.
  apply (remote_path_absolute_segment build ["cache"] "/scratch" ["crown.tar.gz"]).
  reflexivity.
Defined.

(** A machine on which the set-up of the build environment fails. *)
Definition broken_workstation : system unit := {|
  sys_run := fun _ o => ((0%Z, "/usr/bin/cmake", EmptyString), o);
  sys_stream := fun _ o => (Runner.failing_child 0, o);
  sys_environ := fun _ => ∅;
  sys_getcwd := fun _ => "/work";
  sys_path_exists := fun _ _ => false;
  sys_abspath := fun path _ => path_join "/work" [path];
  sys_remote_exists := fun _ _ => false;
  sys_effect := fun _ o => (Ok tt, o);
  sys_setup_build_environment :=
    fun _ _ _ o => (Raise (Exception "crownlib not found"), o);
|}.

Lemma failed_setup_uploads_nothing_witness :
  run broken_workstation build Runner.idle =
  (Raise (Exception "crownlib not found"),
   {| events :=
        [Rule "Building new CROWN tarball";
         SetupBuildEnvironment "build/tag/CROWN_tau_config"
           "tarballs/tag/CROWN_tau_config" "crownlib.tar.gz"];
      os := tt |}).
Proof.
  apply (failed_setup_uploads_nothing broken_workstation build Runner.idle
           (Exception "crownlib not found") tt); reflexivity.
Defined.

(** A machine on which the compile script terminates with status 2. *)
Definition failing_compiler : system unit := {|
  sys_run := fun _ o => ((0%Z, "/usr/bin/cmake", EmptyString), o);
  sys_stream := fun _ o => (Runner.failing_child 2, o);
  sys_environ := fun _ => ∅;
  sys_getcwd := fun _ => "/work";
  sys_path_exists := fun _ _ => false;
  sys_abspath := fun path _ => path_join "/work" [path];
  sys_remote_exists := fun _ _ => false;
  sys_effect := fun _ o => (Ok tt, o);
  sys_setup_build_environment := fun b i _ o => (Ok (∅, b, i), o);
|}.

Lemma upload_follows_compile_witness :
  exists before p shown,
    events (run failing_compiler build Runner.idle).2 =
    [] ++ before ++
      [Streamed (compile_args failing_compiler build tt
                   "tarballs/tag/CROWN_tau_config" "build/tag/CROWN_tau_config")
                p] ++ shown ++
      [Rule "Finished CROWNBuild";
       Effect (UploadTarball (output build)
                 (path_join "tarballs/tag/CROWN_tau_config" [basename (output build)])
                 10)].
Proof.
  destruct (run failing_compiler build Runner.idle) as [r w'] eqn:Hrun.
  destruct (upload_follows_compile failing_compiler build Runner.idle r w' ∅
              "build/tag/CROWN_tau_config" "tarballs/tag/CROWN_tau_config" tt
              eq_refl eq_refl Hrun)
    as (before & p & shown & os2 & Hevents & _ & _).
  exists before, p, shown.
  exact Hevents.
Defined.

End ArtifactCache.
